(** * Sales analytics system: parser, validator/filter, aggregator, enricher

    A shallow embedding of [utils/file_handler.py], [utils/data_processor.py]
    and [utils/api_handler.py], followed by the properties of the
    specification that concern them.

    Conventions of the embedding.
    - A Python [str] is a Rocq [string], one [ascii] per code point; the
      strings of the model are those whose code points are below 256.
    - A Python [int] is a [Z].
    - A Python [float] is a binary64 [float] (the kernel's primitive floats).
      The aggregation code never names a numeric type, so it is embedded once,
      over the class [PyNum], and run at two instances: [float] (what the
      parser produces) and [Q] (what the same code computes on
      [fractions.Fraction] prices, that is, in exact arithmetic).
    - A transaction dictionary is a record of eight optional fields: a field
      that is [None] is a key missing from the dictionary, so every
      [except KeyError] of the source has its branch here.
    - A dictionary used as an ordered table (region, product and day
      statistics) is an association list in insertion order; the product
      catalogue, only ever looked up, is a [gmap].
    - An exception is a value of [exn]; a call that may raise returns a
      [result]. The conversions [int] and [float] of a string raise
      [ValueError] only, and return an [option]. *)

From Stdlib Require Import ZArith QArith Qabs List String Ascii Bool Lia Lqa.
From Stdlib Require Import Floats Permutation Sorted.
From stdpp Require Import gmap.
Import ListNotations.

Local Open Scope string_scope.
Local Open Scope list_scope.
Local Open Scope Z_scope.

(** ** Exceptions *)

Inductive exn : Type :=
| KeyError (key : string)
| IndexError
| ZeroDivisionError.

Inductive result (A : Type) : Type :=
| Ok (a : A)
| Raise (e : exn).
Arguments Ok {A} a.
Arguments Raise {A} e.

Definition bind {A B : Type} (m : result A) (k : A -> result B) : result B :=
  match m with
  | Ok a => k a
  | Raise e => Raise e
  end.

Notation "'let*' x ':=' m 'in' k" := (bind m (fun x => k))
  (at level 10, x pattern, m at level 100, k at level 200).

(** [d[key]] on a dictionary whose entry [key] is the optional field [field]. *)
Definition getitem {A : Type} (key : string) (field : option A) : result A :=
  match field with
  | Some a => Ok a
  | None => Raise (KeyError key)
  end.

(** Python's [a or b] on two conditions that may raise: [b] is evaluated only
    when [a] is false. *)
Definition or_else (a b : result bool) : result bool :=
  match a with
  | Ok true => Ok true
  | Ok false => b
  | Raise e => Raise e
  end.

(** ** Strings *)

Module PyStr.

Definition code (c : ascii) : N := N_of_ascii c.

(** [str.isspace] on one code point below 256. *)
Definition isspace (c : ascii) : bool :=
  let n := code c in
  ((9 <=? n) && (n <=? 13) || (28 <=? n) && (n <=? 32)
   || (n =? 133) || (n =? 160))%N.

(** The white space [int] and [float] skip around a number: the ASCII
    blanks, and the two blanks above 127 (which the conversion first turns
    into a space). The separators 28 to 31 are not skipped. *)
Definition isspace_number (c : ascii) : bool :=
  let n := code c in
  ((9 <=? n) && (n <=? 13) || (n =? 32) || (n =? 133) || (n =? 160))%N.

Definition isdigit (c : ascii) : bool :=
  let n := code c in ((48 <=? n) && (n <=? 57))%N.

Definition digit_value (c : ascii) : Z := Z.of_N (code c) - 48.

(** [str.lstrip(chars)] with the set of characters given as a predicate. *)
Fixpoint lstrip_by (p : ascii -> bool) (s : string) : string :=
  match s with
  | EmptyString => EmptyString
  | String c s' => if p c then lstrip_by p s' else s
  end.

Fixpoint rstrip_by (p : ascii -> bool) (s : string) : string :=
  match s with
  | EmptyString => EmptyString
  | String c s' =>
      match rstrip_by p s' with
      | EmptyString => if p c then EmptyString else String c EmptyString
      | r => String c r
      end
  end.

(** [s.strip()] *)
Definition strip (s : string) : string := lstrip_by isspace (rstrip_by isspace s).

Fixpoint mem (c : ascii) (chars : string) : bool :=
  match chars with
  | EmptyString => false
  | String d chars' => Ascii.eqb c d || mem c chars'
  end.

(** [s.lstrip(chars)] *)
Definition lstrip (chars : string) (s : string) : string :=
  lstrip_by (fun c => mem c chars) s.

(** [s.split(sep)] for a separator of one character. *)
Fixpoint split (sep : ascii) (s : string) : list string :=
  match s with
  | EmptyString => [EmptyString]
  | String c s' =>
      if Ascii.eqb c sep then EmptyString :: split sep s'
      else match split sep s' with
           | field :: fields => String c field :: fields
           | [] => [String c EmptyString]
           end
  end.

(** [s.replace(old, new)] for [old] of one character. *)
Fixpoint replace (old : ascii) (new : string) (s : string) : string :=
  match s with
  | EmptyString => EmptyString
  | String c s' =>
      if Ascii.eqb c old then (new ++ replace old new s')%string
      else String c (replace old new s')
  end.

(** [s.startswith(prefix)] *)
Definition startswith (prefix s : string) : bool := String.prefix prefix s.

Fixpoint contains (c : ascii) (s : string) : bool :=
  match s with
  | EmptyString => false
  | String d s' => Ascii.eqb d c || contains c s'
  end.

(** [sep.join(fields)] *)
Fixpoint join (sep : string) (fields : list string) : string :=
  match fields with
  | [] => EmptyString
  | [field] => field
  | field :: fields' => (field ++ sep ++ join sep fields')%string
  end.

Definition lower (c : ascii) : ascii :=
  let n := code c in
  if ((65 <=? n) && (n <=? 90))%N then ascii_of_N (n + 32) else c.

Fixpoint lowercase (s : string) : string :=
  match s with
  | EmptyString => EmptyString
  | String c s' => String (lower c) (lowercase s')
  end.

End PyStr.

(** ** Numeric literals: the grammar of [int(str)] and [float(str)] *)

Module PyLit.
Import PyStr.

(** Underscores are accepted between two digits and nowhere else; they are
    removed before the number is read. [prev] is the character before. *)
Fixpoint drop_underscores (prev : option ascii) (s : string) : option string :=
  match s with
  | EmptyString =>
      match prev with
      | Some "_"%char => None
      | _ => Some EmptyString
      end
  | String c s' =>
      if Ascii.eqb c "_" then
        match prev with
        | Some p => if isdigit p then drop_underscores (Some c) s' else None
        | None => None
        end
      else
        match prev with
        | Some "_"%char =>
            if isdigit c then option_map (String c) (drop_underscores (Some c) s')
            else None
        | _ => option_map (String c) (drop_underscores (Some c) s')
        end
  end.

(** The leading digits of [s] (their value, how many) and what follows. *)
Fixpoint digits (acc : Z) (count : Z) (s : string) : Z * Z * string :=
  match s with
  | String c s' =>
      if isdigit c then digits (10 * acc + digit_value c) (count + 1) s'
      else (acc, count, s)
  | EmptyString => (acc, count, s)
  end.

(** An optional sign: [true] for a minus. *)
Definition sign (s : string) : bool * string :=
  match s with
  | String "-"%char s' => (true, s')
  | String "+"%char s' => (false, s')
  | _ => (false, s)
  end.

Definition number_strip (s : string) : string :=
  lstrip_by isspace_number (rstrip_by isspace_number s).

(** [int(s)], base ten; [None] is [ValueError], the one exception the
    conversion of a string raises. *)
Definition int (s : string) : option Z :=
  match drop_underscores None s with
  | None => None
  | Some s1 =>
      let '(neg, s2) := sign (number_strip s1) in
      let '(value, count, rest) := digits 0 0 s2 in
      if (0 <? count) && String.eqb rest EmptyString
      then Some (if neg then - value else value)
      else None
  end.

(** The nearest binary64 number to [n], ties to even. *)
Definition float_of_Z (n : Z) : float :=
  SF2Prim (binary_normalize prec emax n 0 false).

(** The nearest binary64 number to [(-1)^neg * m * 10^e], ties to even: what
    a decimal literal denotes. *)
Definition float_of_decimal (neg : bool) (m : Z) (e : Z) : float :=
  match m with
  | Zpos p =>
      if 0 <=? e
      then SF2Prim (binary_normalize prec emax
                      (if neg then - (m * 10 ^ e) else m * 10 ^ e) 0 neg)
      else SF2Prim (SFdiv prec emax (S754_finite neg p 0)
                      (S754_finite false (Z.to_pos (10 ^ (- e))) 0))
  | _ => if neg then (-0)%float else 0%float
  end.

(** The exponent part of a decimal literal: nothing, or [e], an optional
    sign and at least one digit, up to the end of the string. *)
Definition exponent (s : string) : option Z :=
  match s with
  | EmptyString => Some 0
  | String c s' =>
      if Ascii.eqb (lower c) "e" then
        let '(neg, s2) := sign s' in
        let '(value, count, rest) := digits 0 0 s2 in
        if (0 <? count) && String.eqb rest EmptyString
        then Some (if neg then - value else value)
        else None
      else None
  end.

(** [float(s)]; [None] is [ValueError]. *)
Definition float (s : string) : option PrimFloat.float :=
  match drop_underscores None s with
  | None => None
  | Some s1 =>
      let '(neg, s2) := sign (number_strip s1) in
      let word := lowercase s2 in
      if String.eqb word "inf" || String.eqb word "infinity"
      then Some (if neg then neg_infinity else infinity)
      else if String.eqb word "nan" then Some nan
      else
        let '(ipart, icount, s3) := digits 0 0 s2 in
        let '(mantissa, fcount, s4) :=
          match s3 with
          | String "."%char s3' =>
              let '(m, total, s4) := digits ipart icount s3' in
              (m, total - icount, s4)
          | _ => (ipart, 0, s3)
          end in
        if 0 <? icount + fcount then
          match exponent s4 with
          | Some e => Some (float_of_decimal neg mantissa (e - fcount))
          | None => None
          end
        else None
  end.

End PyLit.

(** ** Numbers

    The operations the pipeline applies to prices and amounts. An [int]
    operand that meets a price is first converted ([num_of_int]), as Python
    does for [int * float] and [0 + float]; [num_div] is [/], which raises on a
    zero divisor; [num_round2 x] is [round(x, 2)]. *)

Class PyNum (T : Type) : Type := {
  num_of_int : Z -> T;
  num_add : T -> T -> T;
  num_mul : T -> T -> T;
  num_div : T -> T -> result T;
  num_lt : T -> T -> bool;
  num_le : T -> T -> bool;
  num_round2 : T -> T
}.

(** [x > y] is [y < x]. *)
Definition num_gt {T : Type} `{PyNum T} (x y : T) : bool := num_lt y x.

Module PyFloat.

(** [round(x, 2)] on a float: the decimal with two places nearest to the
    exact value of [x], an exact tie going to the even last digit, read back
    as the nearest float. A float whose exponent is not negative is an
    integer and is returned as it is, as are the infinities, the zeros and
    NaN. *)
Definition round2 (x : float) : float :=
  match Prim2SF x with
  | S754_finite s m e =>
      if 0 <=? e then x
      else
        let num := Zpos m * 100 in
        let den := 2 ^ (- e) in
        let q := num / den in
        let r := num mod den in
        let n := match 2 * r ?= den with
                 | Lt => q
                 | Gt => q + 1
                 | Eq => if Z.even q then q else q + 1
                 end in
        match n with
        | Zpos p => SF2Prim (SFdiv prec emax (S754_finite s p 0)
                               (S754_finite false 100 0))
        | _ => if s then (-0)%float else 0%float
        end
  | _ => x
  end.

Definition div (x y : float) : result float :=
  if PrimFloat.eqb y 0 then Raise ZeroDivisionError else Ok (x / y)%float.

End PyFloat.

(** Binary64 numbers. Python converts an [int] to the nearest float and raises
    [OverflowError] when the [int] is beyond the binary64 range (from 2^1024
    on); the model is about quantities within the range, where [float_of_Z] is
    that conversion. *)
#[export] Instance float_num : PyNum float := {
  num_of_int := PyLit.float_of_Z;
  num_add := PrimFloat.add;
  num_mul := PrimFloat.mul;
  num_div := PyFloat.div;
  num_lt := PrimFloat.ltb;
  num_le := PrimFloat.leb;
  num_round2 := PyFloat.round2
}.

Module PyFraction.

(** [round(q)] on a fraction: the nearest integer, a tie going to the even
    one. *)
Definition round_half_even (x : Q) : Z :=
  let d := Zpos (Qden x) in
  let q := Qnum x / d in
  let r := Qnum x mod d in
  match 2 * r ?= d with
  | Lt => q
  | Gt => q + 1
  | Eq => if Z.even q then q else q + 1
  end.

(** [round(x, 2)] is [Fraction(round(x * 100), 100)]. *)
Definition round2 (x : Q) : Q := round_half_even (x * 100) # 100.

Definition div (x y : Q) : result Q :=
  if Qeq_bool y 0 then Raise ZeroDivisionError else Ok (x / y)%Q.

Definition ltb (x y : Q) : bool := negb (Qle_bool y x).

End PyFraction.

(** Exact rational numbers: [fractions.Fraction]. *)
#[export] Instance fraction_num : PyNum Q := {
  num_of_int := inject_Z;
  num_add := Qplus;
  num_mul := Qmult;
  num_div := PyFraction.div;
  num_lt := PyFraction.ltb;
  num_le := Qle_bool;
  num_round2 := PyFraction.round2
}.

(** [len(l)] *)
Definition len {A : Type} (l : list A) : Z := Z.of_nat (length l).

(** A [for] loop over [l] whose body, from the state [s] and the element [x],
    gives the next state or raises. *)
Fixpoint for_each {A S : Type} (body : S -> A -> result S) (l : list A) (s : S)
  : result S :=
  match l with
  | [] => Ok s
  | x :: l' => let* s' := body s x in for_each body l' s'
  end.

(** ** The transaction record *)

Record Transaction (T : Type) : Type := {
  TransactionID : option string;
  Date : option string;
  ProductID : option string;
  ProductName : option string;
  Quantity : option Z;
  UnitPrice : option T;
  CustomerID : option string;
  Region : option string
}.
Arguments TransactionID {T} _.
Arguments Date {T} _.
Arguments ProductID {T} _.
Arguments ProductName {T} _.
Arguments Quantity {T} _.
Arguments UnitPrice {T} _.
Arguments CustomerID {T} _.
Arguments Region {T} _.

(** ** [utils/file_handler.py] *)

(** One turn of the loop of [parse_transactions]: [transactions] is the list
    built so far, and a [continue] leaves it as it is. *)
Definition parse_line (transactions : list (Transaction float)) (line : string)
  : list (Transaction float) :=
  let parts := PyStr.split "|" (PyStr.strip line) in
  if negb (len parts =? 8) then transactions
  else
    match parts with
    | [transaction_id; date; product_id; part3; part4; part5; customer_id; region] =>
        let product_name := PyStr.replace "," " " part3 in
        match PyLit.int (PyStr.replace "," EmptyString part4) with
        | None => transactions
        | Some quantity =>
            match PyLit.float (PyStr.replace "," EmptyString part5) with
            | None => transactions
            | Some unit_price =>
                transactions ++
                [ {| TransactionID := Some transaction_id;
                     Date := Some date;
                     ProductID := Some product_id;
                     ProductName := Some product_name;
                     Quantity := Some quantity;
                     UnitPrice := Some unit_price;
                     CustomerID := Some customer_id;
                     Region := Some region |} ]
            end
        end
    | _ => transactions
    end.

Definition parse_transactions (raw_lines : list string) : list (Transaction float) :=
  fold_left parse_line raw_lines [].

Record FilterSummary : Type := {
  total_input : Z;
  invalid : Z;
  filtered_by_region : Z;
  filtered_by_amount : Z;
  final_count : Z
}.

Definition set_invalid (n : Z) (s : FilterSummary) : FilterSummary :=
  {| total_input := total_input s; invalid := n;
     filtered_by_region := filtered_by_region s;
     filtered_by_amount := filtered_by_amount s;
     final_count := final_count s |}.

Definition set_filtered_by_region (n : Z) (s : FilterSummary) : FilterSummary :=
  {| total_input := total_input s; invalid := invalid s;
     filtered_by_region := n;
     filtered_by_amount := filtered_by_amount s;
     final_count := final_count s |}.

Definition set_filtered_by_amount (n : Z) (s : FilterSummary) : FilterSummary :=
  {| total_input := total_input s; invalid := invalid s;
     filtered_by_region := filtered_by_region s;
     filtered_by_amount := n;
     final_count := final_count s |}.

Definition set_final_count (n : Z) (s : FilterSummary) : FilterSummary :=
  {| total_input := total_input s; invalid := invalid s;
     filtered_by_region := filtered_by_region s;
     filtered_by_amount := filtered_by_amount s;
     final_count := n |}.

(** [if region:] holds for a string that is neither [None] nor empty. *)
Definition truthy (region : option string) : bool :=
  match region with
  | Some r => negb (String.eqb r EmptyString)
  | None => false
  end.

Section FileHandler.
Context {T : Type} `{PyNum T}.

(** The condition of the [if] in [get_valid_transaction]; the operands of
    [or] are evaluated from the left, up to the first that holds or raises. *)
Definition violates_rules (transaction : Transaction T) : result bool :=
  or_else (let* quantity := getitem "Quantity" (Quantity transaction) in
           Ok (quantity <=? 0))
 (or_else (let* unit_price := getitem "UnitPrice" (UnitPrice transaction) in
           Ok (num_le unit_price (num_of_int 0)))
 (or_else (let* product_id := getitem "ProductID" (ProductID transaction) in
           Ok (negb (PyStr.startswith "P" product_id)))
 (or_else (let* transaction_id := getitem "TransactionID" (TransactionID transaction) in
           Ok (negb (PyStr.startswith "T" transaction_id)))
          (let* customer_id := getitem "CustomerID" (CustomerID transaction) in
           Ok (negb (PyStr.startswith "C" customer_id)))))).

Definition get_valid_transaction (transactions : list (Transaction T))
  : result (Z * list (Transaction T)) :=
  for_each
    (fun '(invalid_count, valid_transactions) transaction =>
       match violates_rules transaction with
       | Ok true => Ok (invalid_count + 1, valid_transactions)
       | Raise (KeyError _) => Ok (invalid_count + 1, valid_transactions)
       | Raise e => Raise e
       | Ok false => Ok (invalid_count, valid_transactions ++ [transaction])
       end)
    transactions (0, []).

Definition get_trnsaction_by_region (region : string)
    (valid_transactions : list (Transaction T)) : result (list (Transaction T)) :=
  for_each
    (fun region_transaction valid_transaction =>
       let* r := getitem "Region" (Region valid_transaction) in
       if String.eqb r region
       then Ok (region_transaction ++ [valid_transaction])
       else Ok region_transaction)
    valid_transactions [].

(** The function stores [filtered_by_amount] in the summary it is given: the
    updated summary is returned beside the list. *)
Definition get_transaction_by_amout (min_amount max_amount : option T)
    (valid_transactions : list (Transaction T)) (filter_summary : FilterSummary)
  : result (list (Transaction T) * FilterSummary) :=
  let before_count := len valid_transactions in
  let* filter_by_amount :=
    for_each
      (fun filter_by_amount transaction =>
         let* quantity := getitem "Quantity" (Quantity transaction) in
         let* unit_price := getitem "UnitPrice" (UnitPrice transaction) in
         let amount := num_mul (num_of_int quantity) unit_price in
         if match min_amount with
            | Some m => num_lt amount m
            | None => false
            end
         then Ok filter_by_amount
         else if match max_amount with
                 | Some m => num_gt amount m
                 | None => false
                 end
         then Ok filter_by_amount
         else Ok (filter_by_amount ++ [transaction]))
      valid_transactions [] in
  let valid_transactions := filter_by_amount in
  Ok (valid_transactions,
      set_filtered_by_amount (before_count - len valid_transactions) filter_summary).

Definition validate_and_filter (transactions : list (Transaction T))
    (region : option string) (min_amount max_amount : option T)
  : result (list (Transaction T) * Z * FilterSummary) :=
  let filter_summary :=
    {| total_input := len transactions; invalid := 0;
       filtered_by_region := 0; filtered_by_amount := 0; final_count := 0 |} in
  let* (invalid_count, valid_transactions) := get_valid_transaction transactions in
  let filter_summary := set_invalid invalid_count filter_summary in
  let* (valid_transactions, filter_summary) :=
    match region with
    | Some r =>
        if truthy region then
          let before_filtering := len valid_transactions in
          let* valid_transactions := get_trnsaction_by_region r valid_transactions in
          Ok (valid_transactions,
              set_filtered_by_region (before_filtering - len valid_transactions)
                filter_summary)
        else Ok (valid_transactions, filter_summary)
    | None => Ok (valid_transactions, filter_summary)
    end in
  let* (valid_transactions, filter_summary) :=
    match min_amount, max_amount with
    | None, None => Ok (valid_transactions, filter_summary)
    | _, _ => get_transaction_by_amout min_amount max_amount valid_transactions
                filter_summary
    end in
  let filter_summary := set_final_count (len valid_transactions) filter_summary in
  Ok (valid_transactions, invalid_count, filter_summary).

End FileHandler.

(** ** Dictionaries in insertion order, and [sorted] *)

Module Dict.

Definition t (V : Type) : Type := list (string * V).

(** [d.get(k)] *)
Fixpoint get {V : Type} (k : string) (d : t V) : option V :=
  match d with
  | [] => None
  | (k', v) :: d' => if String.eqb k' k then Some v else get k d'
  end.

(** [d[k] = v]: a key already there keeps its place, a new key goes last. *)
Fixpoint set {V : Type} (k : string) (v : V) (d : t V) : t V :=
  match d with
  | [] => [(k, v)]
  | (k', v') :: d' =>
      if String.eqb k' k then (k, v) :: d' else (k', v') :: set k v d'
  end.

Definition values {V : Type} (d : t V) : list V := map snd d.

End Dict.

(** [insert after x l] puts [x] in [l] behind the elements it must come
    after, and before the first one it need not. *)
Fixpoint insert {A : Type} (after : A -> A -> bool) (x : A) (l : list A) : list A :=
  match l with
  | [] => [x]
  | y :: l' => if after x y then y :: insert after x l' else x :: l
  end.

Fixpoint sort_by {A : Type} (after : A -> A -> bool) (l : list A) : list A :=
  match l with
  | [] => []
  | x :: l' => insert after x (sort_by after l')
  end.

(** [sorted(l, key=key, reverse=reverse)], where [lt] is [<] on the keys. The
    sort is stable: elements with equal keys keep their order, also under
    [reverse=True]. The model is a stable insertion sort and gives the list
    [sorted] gives whenever [<] orders the keys totally. *)
Definition py_sorted {A K : Type} (lt : K -> K -> bool) (key : A -> K)
    (reverse : bool) (l : list A) : list A :=
  sort_by (fun x y => if reverse then lt (key x) (key y) else lt (key y) (key x)) l.

(** [l[:n]] *)
Definition slice_to {A : Type} (n : Z) (l : list A) : list A :=
  if 0 <=? n then firstn (Z.to_nat n) l else firstn (Z.to_nat (len l + n)) l.

(** ** [utils/data_processor.py] *)

Module RegionStats.
(** [percentage] is absent until the second loop of [region_wise_sales]. *)
Record t (T : Type) : Type := {
  total_sales : T;
  transaction_count : Z;
  percentage : option T
}.
Arguments total_sales {T} _.
Arguments transaction_count {T} _.
Arguments percentage {T} _.
End RegionStats.

Section Revenue.
Context {T : Type} `{PyNum T}.

(** The literal [0.0] of the source, in the type of the prices. *)
Definition float_zero : T := num_of_int 0.

(** [transaction['Quantity'] * transaction['UnitPrice']], or [None] when
    one of the two keys is missing. *)
Definition amount_of (transaction : Transaction T) : option T :=
  match Quantity transaction, UnitPrice transaction with
  | Some quantity, Some unit_price => Some (num_mul (num_of_int quantity) unit_price)
  | _, _ => None
  end.

Definition calculate_total_revenue (transactions : list (Transaction T)) : T :=
  fold_left
    (fun total_revenue transaction =>
       match amount_of transaction with
       | Some amount => num_add total_revenue amount
       | None => total_revenue
       end)
    transactions (num_of_int 0).

(** The first loop of [region_wise_sales]: the statistics per region and the
    running total. *)
Definition region_totals (transactions : list (Transaction T))
  : Dict.t (RegionStats.t T) * T :=
  fold_left
    (fun '(region_stats, total_sales) transaction =>
       match Region transaction, amount_of transaction with
       | Some region, Some sales_amount =>
           let stats :=
             match Dict.get region region_stats with
             | Some stats => stats
             | None => {| RegionStats.total_sales := num_of_int 0;
                          RegionStats.transaction_count := 0;
                          RegionStats.percentage := None |}
             end in
           (Dict.set region
              {| RegionStats.total_sales :=
                   num_add (RegionStats.total_sales stats) sales_amount;
                 RegionStats.transaction_count :=
                   RegionStats.transaction_count stats + 1;
                 RegionStats.percentage := RegionStats.percentage stats |}
              region_stats,
            num_add total_sales sales_amount)
       | _, _ => (region_stats, total_sales)
       end)
    transactions ([], num_of_int 0).

(** The second loop: the share of each region. *)
Definition with_percentage (total_sales : T) (entry : string * RegionStats.t T)
  : result (string * RegionStats.t T) :=
  let '(region, stats) := entry in
  let* percentage :=
    if num_gt total_sales (num_of_int 0) then
      let* share := num_div (RegionStats.total_sales stats) total_sales in
      Ok (num_round2 (num_mul share (num_of_int 100)))
    else Ok float_zero in
  Ok (region,
      {| RegionStats.total_sales := RegionStats.total_sales stats;
         RegionStats.transaction_count := RegionStats.transaction_count stats;
         RegionStats.percentage := Some percentage |}).

Definition region_wise_sales (transactions : list (Transaction T))
  : result (Dict.t (RegionStats.t T)) :=
  let '(region_stats, total_sales) := region_totals transactions in
  let* region_stats :=
    for_each
      (fun done entry =>
         let* entry' := with_percentage total_sales entry in Ok (done ++ [entry']))
      region_stats [] in
  Ok (py_sorted num_lt (fun item => RegionStats.total_sales (snd item)) true
        region_stats).

End Revenue.

(** The remaining aggregates start their sums from the literal [0.0]: what
    they add up is a float whatever the prices are, and they are embedded on
    [float]. *)

Module ProductStats.
Record t : Type := {
  total_quantity : Z;
  total_revenue : float
}.
End ProductStats.

(** [get_product_stats] fills the dictionary it is given; the filled
    dictionary is its result here. *)
Definition get_product_stats (transactions : list (Transaction float))
    (product_stats : Dict.t ProductStats.t) : Dict.t ProductStats.t :=
  fold_left
    (fun product_stats transaction =>
       match ProductName transaction, Quantity transaction, UnitPrice transaction with
       | Some product_name, Some quantity, Some unit_price =>
           let stats :=
             match Dict.get product_name product_stats with
             | Some stats => stats
             | None => {| ProductStats.total_quantity := 0;
                          ProductStats.total_revenue := 0%float |}
             end in
           Dict.set product_name
             {| ProductStats.total_quantity :=
                  ProductStats.total_quantity stats + quantity;
                ProductStats.total_revenue :=
                  (ProductStats.total_revenue stats
                   + num_of_int quantity * unit_price)%float |}
             product_stats
       | _, _, _ => product_stats
       end)
    transactions product_stats.

Definition top_selling_products (transactions : list (Transaction float)) (n : Z)
  : list (string * Z * float) :=
  let product_stats := get_product_stats transactions [] in
  let sorted_products :=
    py_sorted Z.ltb (fun item => ProductStats.total_quantity (snd item)) true
      product_stats in
  fold_left
    (fun top_n_products '(product, stats) =>
       top_n_products ++
       [(product, ProductStats.total_quantity stats, ProductStats.total_revenue stats)])
    (slice_to n sorted_products) [].

Module DayStats.
(** [unique_customers] is the list of the day's customers in the first loop
    of [daily_sales_trend] and the number of distinct ones after the
    second: the record has the type of the field as a parameter. *)
Record t (C : Type) : Type := {
  revenue : float;
  transaction_count : Z;
  unique_customers : C
}.
Arguments revenue {C} _.
Arguments transaction_count {C} _.
Arguments unique_customers {C} _.
End DayStats.

(** [len(set(l))] *)
Definition count_distinct (l : list string) : Z := len (nodup string_dec l).

(** The first loop of [daily_sales_trend]: revenue, count and customers of
    each day, the days in the order they are first met. *)
Definition day_totals (transactions : list (Transaction float))
  : Dict.t (DayStats.t (list string)) :=
  fold_left
    (fun date_stats transaction =>
       match Date transaction, CustomerID transaction, amount_of transaction with
       | Some date, Some customer_id, Some amount_spent =>
           let stats :=
             match Dict.get date date_stats with
             | Some stats => stats
             | None => {| DayStats.revenue := 0%float;
                          DayStats.transaction_count := 0;
                          DayStats.unique_customers := [] |}
             end in
           Dict.set date
             {| DayStats.revenue := (DayStats.revenue stats + amount_spent)%float;
                DayStats.transaction_count := DayStats.transaction_count stats + 1;
                DayStats.unique_customers :=
                  DayStats.unique_customers stats ++ [customer_id] |}
             date_stats
       | _, _, _ => date_stats
       end)
    transactions [].

(** The second loop: the customers of a day are replaced by their number. *)
Definition count_customers (entry : string * DayStats.t (list string))
  : string * DayStats.t Z :=
  let '(date, stats) := entry in
  (date,
   {| DayStats.revenue := DayStats.revenue stats;
      DayStats.transaction_count := DayStats.transaction_count stats;
      DayStats.unique_customers :=
        count_distinct (DayStats.unique_customers stats) |}).

Definition daily_sales_trend (transactions : list (Transaction float))
  : Dict.t (DayStats.t Z) :=
  let date_stats := map count_customers (day_totals transactions) in
  py_sorted String.ltb fst false date_stats.

(** One turn of the scan of [find_peak_sales_day]. *)
Definition peak_step (state : option string * float * Z)
    (item : string * DayStats.t Z) : option string * float * Z :=
  let '(peak_day, max_revenue, transaction_count) := state in
  let '(date, stats) := item in
  if (max_revenue <? DayStats.revenue stats)%float
  then (Some date, DayStats.revenue stats, DayStats.transaction_count stats)
  else state.

Definition find_peak_sales_day (transactions : list (Transaction float))
  : option string * float * Z :=
  let daily_stats := daily_sales_trend transactions in
  fold_left peak_step daily_stats (None, 0%float, 0).

(** ** [utils/api_handler.py] *)

(** A product as the catalogue service returns it; a missing key is [None]. *)
Record ApiProduct : Type := {
  api_id : option Z;
  api_title : option string;
  api_category : option string;
  api_brand : option string;
  api_rating : option float
}.

Record ProductInfo : Type := {
  title : string;
  category : string;
  brand : string;
  rating : float
}.

Definition create_product_mapping (api_products : list ApiProduct)
  : gmap Z ProductInfo :=
  fold_left
    (fun product_mapping product =>
       match api_id product, api_title product, api_category product,
             api_brand product, api_rating product with
       | Some product_id, Some t, Some c, Some b, Some r =>
           <[product_id := {| title := t; category := c; brand := b; rating := r |}]>
             product_mapping
       | _, _, _, _, _ => product_mapping
       end)
    api_products ∅.

(** The copy of a transaction with the four keys the enricher adds. Here
    [None] in [API_Category], [API_Brand] and [API_Rating] is the value
    [None] of Python, not a missing key: the four keys are always set. *)
Record EnrichedTransaction : Type := {
  transaction_of : Transaction float;
  API_Category : option string;
  API_Brand : option string;
  API_Rating : option float;
  API_Match : bool
}.

(** The number looked up in the catalogue: [int(product_id_str.lstrip('P1'))],
    [None] when [int] raises [ValueError]. *)
Definition numeric_id (product_id_str : string) : option Z :=
  PyLit.int (PyStr.lstrip "P1" product_id_str).

(** The body of the loop of [enrich_sales_data]. *)
Definition enrich_transaction (product_mapping : gmap Z ProductInfo)
    (transaction : Transaction float) : EnrichedTransaction :=
  let unmatched :=
    {| transaction_of := transaction;
       API_Category := None; API_Brand := None; API_Rating := None;
       API_Match := false |} in
  let product_id_str :=
    match ProductID transaction with
    | Some s => s
    | None => EmptyString
    end in
  match numeric_id product_id_str with
  | Some product_id =>
      match product_mapping !! product_id with
      | Some product_info =>
          {| transaction_of := transaction;
             API_Category := Some (category product_info);
             API_Brand := Some (brand product_info);
             API_Rating := Some (rating product_info);
             API_Match := true |}
      | None => unmatched
      end
  | None => unmatched
  end.

(** What [str] is applied to when a row of the enriched file is written. *)
Inductive cell : Type :=
| CStr (s : string)
| CInt (n : Z)
| CFloat (x : float)
| CBool (b : bool)
| CNone.

(** A written file: the header and the rows, cell by cell; nothing written
    is no header and no row. The files of the model are those that can be
    opened for writing. *)
Record file : Type := {
  header : list string;
  rows : list (list cell)
}.

Definition empty_file : file := {| header := []; rows := [] |}.

Definition files : Type := gmap string file.

(** [list(d.keys())] of an enriched transaction. *)
Definition enriched_keys (e : EnrichedTransaction) : list string :=
  let t := transaction_of e in
  let key {A : Type} (name : string) (field : option A) : list string :=
    match field with
    | Some _ => [name]
    | None => []
    end in
  key "TransactionID" (TransactionID t) ++ key "Date" (Date t)
  ++ key "ProductID" (ProductID t) ++ key "ProductName" (ProductName t)
  ++ key "Quantity" (Quantity t) ++ key "UnitPrice" (UnitPrice t)
  ++ key "CustomerID" (CustomerID t) ++ key "Region" (Region t)
  ++ ["API_Category"; "API_Brand"; "API_Rating"; "API_Match"].

(** [d.get(key, '')] of an enriched transaction. *)
Definition enriched_get (e : EnrichedTransaction) (key : string) : cell :=
  let t := transaction_of e in
  let str (field : option string) : cell :=
    match field with
    | Some s => CStr s
    | None => CStr EmptyString
    end in
  let nullable {A : Type} (c : A -> cell) (value : option A) : cell :=
    match value with
    | Some a => c a
    | None => CNone
    end in
  if String.eqb key "TransactionID" then str (TransactionID t)
  else if String.eqb key "Date" then str (Date t)
  else if String.eqb key "ProductID" then str (ProductID t)
  else if String.eqb key "ProductName" then str (ProductName t)
  else if String.eqb key "Quantity" then
    match Quantity t with Some n => CInt n | None => CStr EmptyString end
  else if String.eqb key "UnitPrice" then
    match UnitPrice t with Some x => CFloat x | None => CStr EmptyString end
  else if String.eqb key "CustomerID" then str (CustomerID t)
  else if String.eqb key "Region" then str (Region t)
  else if String.eqb key "API_Category" then nullable CStr (API_Category e)
  else if String.eqb key "API_Brand" then nullable CStr (API_Brand e)
  else if String.eqb key "API_Rating" then nullable CFloat (API_Rating e)
  else if String.eqb key "API_Match" then CBool (API_Match e)
  else CStr EmptyString.

(** [save_enriched_data]: the file is opened, and so emptied, before the
    header is taken from the first transaction. *)
Definition save_enriched_data (enriched_transactions : list EnrichedTransaction)
    (filename : string) (fs : files) : result unit * files :=
  match enriched_transactions with
  | [] => (Raise IndexError, <[filename := empty_file]> fs)
  | first :: _ =>
      let headers := enriched_keys first in
      let written :=
        {| header := headers;
           rows := map (fun transaction => map (enriched_get transaction) headers)
                     enriched_transactions |} in
      (Ok tt, <[filename := written]> fs)
  end.

Definition enrich_sales_data (transactions : list (Transaction float))
    (product_mapping : gmap Z ProductInfo) (fs : files)
  : result (list EnrichedTransaction) * files :=
  let enriched_transactions :=
    fold_left
      (fun enriched_transactions transaction =>
         enriched_transactions ++ [enrich_transaction product_mapping transaction])
      transactions [] in
  match save_enriched_data enriched_transactions "data/enriched_sales_data.txt" fs with
  | (Ok _, fs') => (Ok enriched_transactions, fs')
  | (Raise e, fs') => (Raise e, fs')
  end.

(** ** The validator, read as three filters

    The lists and the summary [validate_and_filter] is shown below to
    return. *)

Section Filters.
Context {T : Type} `{PyNum T}.

(** A transaction passes the validation when the condition is evaluated
    without [KeyError] and is false. *)
Definition is_valid (transaction : Transaction T) : bool :=
  match violates_rules transaction with
  | Ok false => true
  | _ => false
  end.

Definition region_is (region : string) (transaction : Transaction T) : bool :=
  match Region transaction with
  | Some r => String.eqb r region
  | None => false
  end.

Definition has_region (transaction : Transaction T) : bool :=
  match Region transaction with
  | Some _ => true
  | None => false
  end.

(** The amount is within the bounds that are given. *)
Definition in_range (min_amount max_amount : option T)
    (transaction : Transaction T) : bool :=
  match amount_of transaction with
  | Some amount =>
      negb match min_amount with
           | Some m => num_lt amount m
           | None => false
           end
      && negb match max_amount with
              | Some m => num_gt amount m
              | None => false
              end
  | None => false
  end.

(** The list after the region step. *)
Definition after_region (region : option string)
    (validated : list (Transaction T)) : list (Transaction T) :=
  match region with
  | Some r => if truthy region then List.filter (region_is r) validated else validated
  | None => validated
  end.

(** The list after the amount step. *)
Definition after_amount (min_amount max_amount : option T)
    (regional : list (Transaction T)) : list (Transaction T) :=
  match min_amount, max_amount with
  | None, None => regional
  | _, _ => List.filter (in_range min_amount max_amount) regional
  end.

(** The summary [validate_and_filter] returns, from the three lists. *)
Definition summary_of (transactions validated regional final : list (Transaction T))
  : FilterSummary :=
  {| total_input := len transactions;
     invalid := len transactions - len validated;
     filtered_by_region := len validated - len regional;
     filtered_by_amount := len regional - len final;
     final_count := len final |}.

End Filters.


(** ** The parser, line by line *)

(** The fields [parse_transactions] sees in a line. *)
Definition fields (line : string) : list string :=
  PyStr.split "|" (PyStr.strip line).

(** A line the parser drops: the fields are not eight, or the fifth is not an
    [int] or the sixth not a [float] once the commas are removed. *)
Definition malformed (line : string) : Prop :=
  length (fields line) <> 8%nat
  \/ PyLit.int (PyStr.replace "," EmptyString (nth 4 (fields line) EmptyString)) = None
  \/ PyLit.float (PyStr.replace "," EmptyString (nth 5 (fields line) EmptyString)) = None.

Definition no_pipe (field : string) : Prop := PyStr.contains "|" field = false.

(** The valid list and the count of [validate_and_filter] with one more
    invalid transaction in the input. *)
Definition one_more_invalid (summary : FilterSummary) : FilterSummary :=
  {| total_input := total_input summary + 1;
     invalid := invalid summary + 1;
     filtered_by_region := filtered_by_region summary;
     filtered_by_amount := filtered_by_amount summary;
     final_count := final_count summary |}.

(** ** The enricher, transaction by transaction *)

(** A transaction the catalogue has nothing for. *)
Definition unmatched (transaction : Transaction float) : EnrichedTransaction :=
  {| transaction_of := transaction;
     API_Category := None; API_Brand := None; API_Rating := None;
     API_Match := false |}.

(** A transaction with the category, brand and rating of its product. *)
Definition matched (product_info : ProductInfo) (transaction : Transaction float)
  : EnrichedTransaction :=
  {| transaction_of := transaction;
     API_Category := Some (category product_info);
     API_Brand := Some (brand product_info);
     API_Rating := Some (rating product_info);
     API_Match := true |}.

(** Every character of [s] satisfies [p]. *)
Fixpoint all_chars (p : ascii -> bool) (s : string) : bool :=
  match s with
  | EmptyString => true
  | String c s' => p c && all_chars p s'
  end.

(** The characters [lstrip('P1')] removes. *)
Definition P_or_1 (c : ascii) : bool := Ascii.eqb c "P" || Ascii.eqb c "1".

(** ** The order of binary64 numbers

    A number that is not NaN has a rank, and [<] on floats is the
    lexicographic order of the ranks; NaN has none and compares with
    nothing. *)



(** ** The days of a list of transactions *)







(** ** The regions against the total *)


(** [sum(l)]: the elements added one by one to the [int] 0. *)
Definition num_sum {T : Type} `{PyNum T} (l : list T) : T :=
  fold_left num_add l (num_of_int 0).

Definition sum_total_sales {T : Type} `{PyNum T} (stats : Dict.t (RegionStats.t T))
  : T :=
  num_sum (map RegionStats.total_sales (Dict.values stats)).


(** All eight fields are there. *)
Definition complete {T : Type} (t : Transaction T) : Prop :=
  TransactionID t <> None /\ Date t <> None /\ ProductID t <> None
  /\ ProductName t <> None /\ Quantity t <> None /\ UnitPrice t <> None
  /\ CustomerID t <> None /\ Region t <> None.




(** The sum of a list of fractions, from the right. *)
Definition qsum (l : list Q) : Q := fold_right Qplus 0%Q l.


(** ** Sample data: the scenario of the specification *)

Module Sample.

Definition laptop : Transaction float :=
  {| TransactionID := Some "T001"; Date := Some "2024-12-01";
     ProductID := Some "P101"; ProductName := Some "Laptop";
     Quantity := Some 2; UnitPrice := Some 45000%float;
     CustomerID := Some "C001"; Region := Some "North" |}.

Definition mouse : Transaction float :=
  {| TransactionID := Some "T002"; Date := Some "2024-12-01";
     ProductID := Some "P102"; ProductName := Some "Mouse";
     Quantity := Some 3; UnitPrice := Some 500%float;
     CustomerID := Some "C002"; Region := Some "North" |}.

(** The same sale, booked under a region spelt in lower case. *)
Definition mouse_lower : Transaction float :=
  {| TransactionID := Some "T003"; Date := Some "2024-12-02";
     ProductID := Some "P102"; ProductName := Some "Mouse";
     Quantity := Some 1; UnitPrice := Some 500%float;
     CustomerID := Some "C002"; Region := Some "north" |}.

Definition transactions : list (Transaction float) := [laptop; mouse; mouse_lower].

(** One large sale in the North and two small ones in the South. *)
Definition turbine : Transaction float :=
  {| TransactionID := Some "T101"; Date := Some "2024-12-01";
     ProductID := Some "P201"; ProductName := Some "Turbine";
     Quantity := Some 1; UnitPrice := Some 1e16%float;
     CustomerID := Some "C101"; Region := Some "North" |}.

Definition washer (transaction_id : string) : Transaction float :=
  {| TransactionID := Some transaction_id; Date := Some "2024-12-01";
     ProductID := Some "P202"; ProductName := Some "Washer";
     Quantity := Some 1; UnitPrice := Some 1%float;
     CustomerID := Some "C102"; Region := Some "South" |}.

Definition uneven : list (Transaction float) :=
  [turbine; washer "T102"; washer "T103"].

(** The scenario with prices as fractions. *)
Definition exact (t : Transaction float) (unit_price : Q) : Transaction Q :=
  {| TransactionID := TransactionID t; Date := Date t;
     ProductID := ProductID t; ProductName := ProductName t;
     Quantity := Quantity t; UnitPrice := Some unit_price;
     CustomerID := CustomerID t; Region := Region t |}.

Definition exact_transactions : list (Transaction Q) :=
  [exact laptop 45000; exact mouse 500; exact mouse_lower (1001 # 2)].

End Sample.

(** ** More of [utils/file_handler.py]: reading the file *)

(** The files that can be read: under each name, the lines [readlines]
    gives once the bytes are decoded. A name that is not there is a file that
    does not exist. *)
Definition disk : Type := gmap string (list string).

(** A line [read_sales_data] leaves out. *)
Definition blank (line : string) : bool :=
  String.eqb (PyStr.strip line) EmptyString.

(** [read_sales_data]: [FileNotFoundError] is caught and gives the empty
    list; [final_line[1:]] of an empty list is the empty list. *)
Definition read_sales_data (filename : string) (d : disk) : list string :=
  match d !! filename with
  | Some lines =>
      let final_line :=
        fold_left
          (fun final_line line =>
             if String.eqb (PyStr.strip line) EmptyString then final_line
             else final_line ++ [line])
          lines [] in
      tl final_line
  | None => []
  end.

(** ** What the validator leaves *)

(** The summary of a list in which nothing is invalid and nothing is
    filtered out. *)
Definition untouched_summary {A : Type} (l : list A) : FilterSummary :=
  {| total_input := len l; invalid := 0; filtered_by_region := 0;
     filtered_by_amount := 0; final_count := len l |}.

(** The list [validate_and_filter] returns, from the input. *)
Definition final_list {T : Type} `{PyNum T} (transactions : list (Transaction T))
    (region : option string) (min_amount max_amount : option T)
  : list (Transaction T) :=
  after_amount min_amount max_amount
    (after_region region (List.filter is_valid transactions)).

(** One of the five keys the validation reads is missing. *)
Definition lacks_checked_key {T : Type} (t : Transaction T) : Prop :=
  Quantity t = None \/ UnitPrice t = None \/ ProductID t = None
  \/ TransactionID t = None \/ CustomerID t = None.

(** ** The revenue and the regions, transaction by transaction *)

(** The amounts [calculate_total_revenue] adds up. *)
Definition amounts {T : Type} `{PyNum T} (transactions : list (Transaction T))
  : list T :=
  flat_map (fun t => match amount_of t with
                     | Some amount => [amount]
                     | None => []
                     end)
    transactions.








(** ** More of [utils/data_processor.py]: the products *)








(** ** More of [utils/data_processor.py]: the customers *)

Module CustomerStats.
(** [products_bought] is a [set] in the first loop of [customer_analysis] and
    the [list] of that set after the second: the list has the elements of
    the set in an order Python does not fix, and the field stays a set here.
    [avg_order_value] is absent until the second loop. *)
Record t : Type := {
  total_spent : float;
  purchase_count : Z;
  products_bought : gset string;
  avg_order_value : option float
}.
End CustomerStats.









(** ** More of [utils/api_handler.py] *)

(** What a product of the service adds to the catalogue: nothing when one of
    the five keys read is missing. *)
Definition product_entry (product : ApiProduct) : option (Z * ProductInfo) :=
  match api_id product, api_title product, api_category product,
        api_brand product, api_rating product with
  | Some product_id, Some t, Some c, Some b, Some r =>
      Some (product_id, {| title := t; category := c; brand := b; rating := r |})
  | _, _, _, _, _ => None
  end.

(** The entries the products add under [product_id], in the order of the
    products. *)
Definition entries_for (product_id : Z) (api_products : list ApiProduct)
  : list ProductInfo :=
  omap (fun product =>
          match product_entry product with
          | Some (i, product_info) =>
              if i =? product_id then Some product_info else None
          | None => None
          end)
    api_products.

(** The number [enrich_sales_data] looks up for a transaction. *)
Definition looked_up (transaction : Transaction float) : option Z :=
  match ProductID transaction with
  | Some product_id_str => numeric_id product_id_str
  | None => None
  end.

(** The product of the catalogue found for a transaction. *)
Definition found (product_mapping : gmap Z ProductInfo)
    (transaction : Transaction float) : option ProductInfo :=
  match looked_up transaction with
  | Some product_id => product_mapping !! product_id
  | None => None
  end.

(** An enriched transaction agrees with the catalogue. *)
Definition agrees_with (product_mapping : gmap Z ProductInfo)
    (e : EnrichedTransaction) : Prop :=
  match found product_mapping (transaction_of e) with
  | Some product_info =>
      API_Match e = true
      /\ API_Category e = Some (category product_info)
      /\ API_Brand e = Some (brand product_info)
      /\ API_Rating e = Some (rating product_info)
  | None =>
      API_Match e = false
      /\ API_Category e = None /\ API_Brand e = None /\ API_Rating e = None
  end.

(** The twelve columns of the enriched file. *)
Definition enriched_columns : list string :=
  ["TransactionID"; "Date"; "ProductID"; "ProductName"; "Quantity"; "UnitPrice";
   "CustomerID"; "Region"; "API_Category"; "API_Brand"; "API_Rating"; "API_Match"].

(** The cells of a transaction that has its eight fields. *)
Definition enriched_row (e : EnrichedTransaction) : list cell :=
  let t := transaction_of e in
  let str (field : option string) : cell :=
    match field with
    | Some s => CStr s
    | None => CStr EmptyString
    end in
  let nullable {A : Type} (c : A -> cell) (value : option A) : cell :=
    match value with
    | Some a => c a
    | None => CNone
    end in
  [str (TransactionID t); str (Date t); str (ProductID t); str (ProductName t);
   match Quantity t with Some n => CInt n | None => CStr EmptyString end;
   match UnitPrice t with Some x => CFloat x | None => CStr EmptyString end;
   str (CustomerID t); str (Region t);
   nullable CStr (API_Category e); nullable CStr (API_Brand e);
   nullable CFloat (API_Rating e); CBool (API_Match e)].

(** ** More of [utils/file_handler.py]: the two filters on their own *)


(** * Properties *)

(** ** Loops that append *)

Lemma len_app {A : Type} (l1 l2 : list A) : len (l1 ++ l2) = len l1 + len l2.
Proof. unfold len. rewrite length_app. lia. Qed.

Lemma len_cons {A : Type} (x : A) (l : list A) : len (x :: l) = 1 + len l.
Proof. unfold len. simpl length. lia. Qed.

Lemma sublist_filter {A : Type} (f : A -> bool) (l : list A) :
  sublist (List.filter f l) l.
Proof.
  induction l as [|x l IH]; simpl.
  - constructor.
  - destruct (f x); now constructor.
Qed.

(** A loop that keeps the elements [keep] accepts and raises [e] at the first
    element [keep] is not defined on. *)
Lemma for_each_keep {A : Type} (keep : A -> result bool)
    (body : list A -> A -> result (list A)) (pure : A -> bool) :
  (forall acc x, body acc x =
     let* b := keep x in Ok (if b then acc ++ [x] else acc)) ->
  forall l acc,
    Forall (fun x => keep x = Ok (pure x)) l ->
    for_each body l acc = Ok (acc ++ List.filter pure l).
Proof.
  intros Hbody l. induction l as [|x l IH]; intros acc Hall; simpl.
  - now rewrite app_nil_r.
  - inversion Hall as [|? ? Hx Hl]; subst.
    rewrite Hbody, Hx. simpl.
    destruct (pure x); rewrite IH by assumption.
    + now rewrite <- app_assoc.
    + reflexivity.
Qed.

Lemma for_each_raise {A S : Type} (body : S -> A -> result S) (e : exn) :
  forall l s,
    Forall (fun x => forall s', body s' x = Raise e \/ exists s'', body s' x = Ok s'') l ->
    Exists (fun x => forall s', body s' x = Raise e) l ->
    for_each body l s = Raise e.
Proof.
  induction l as [|x l IH]; intros s Hall Hex.
  - inversion Hex.
  - inversion Hall as [|? ? Hx Hl]; subst. simpl.
    destruct (Hx s) as [Hr | [s'' Hs]].
    + now rewrite Hr.
    + rewrite Hs. simpl. inversion Hex as [? ? Hnow | ? ? Hlater]; subst.
      * rewrite Hnow in Hs. discriminate.
      * now apply IH.
Qed.

(** ** The validator and its two filters *)

Section FileHandlerFacts.
Context {T : Type} `{PyNum T}.

Lemma violates_rules_raises (transaction : Transaction T) (e : exn) :
  violates_rules transaction = Raise e -> exists key, e = KeyError key.
Proof.
  unfold violates_rules, or_else, getitem, bind.
  destruct (Quantity transaction) as [q|]; [destruct (q <=? 0)|];
    try discriminate; try (intros [= <-]; eauto).
  destruct (UnitPrice transaction) as [p|];
    [destruct (num_le p (num_of_int 0))|];
    try discriminate; try (intros [= <-]; eauto).
  destruct (ProductID transaction) as [pid|];
    [destruct (negb (PyStr.startswith "P" pid))|];
    try discriminate; try (intros [= <-]; eauto).
  destruct (TransactionID transaction) as [tid|];
    [destruct (negb (PyStr.startswith "T" tid))|];
    try discriminate; try (intros [= <-]; eauto).
  destruct (CustomerID transaction) as [cid|];
    try discriminate; try (intros [= <-]; eauto).
Qed.

(** What a valid transaction is, field by field. *)
Lemma is_valid_iff (transaction : Transaction T) :
  is_valid transaction = true <->
  exists quantity unit_price product_id transaction_id customer_id,
    Quantity transaction = Some quantity /\ 0 < quantity
    /\ UnitPrice transaction = Some unit_price
    /\ num_le unit_price (num_of_int 0) = false
    /\ ProductID transaction = Some product_id
    /\ PyStr.startswith "P" product_id = true
    /\ TransactionID transaction = Some transaction_id
    /\ PyStr.startswith "T" transaction_id = true
    /\ CustomerID transaction = Some customer_id
    /\ PyStr.startswith "C" customer_id = true.
Proof.
  unfold is_valid, violates_rules, or_else, getitem, bind. split.
  - destruct (Quantity transaction) as [q|]; [|discriminate].
    destruct (Z.leb_spec q 0); [discriminate|].
    destruct (UnitPrice transaction) as [p|]; [|discriminate].
    destruct (num_le p (num_of_int 0)) eqn:Hp; [discriminate|].
    destruct (ProductID transaction) as [pid|]; [|discriminate].
    destruct (PyStr.startswith "P" pid) eqn:Hpid; [|discriminate].
    destruct (TransactionID transaction) as [tid|]; [|discriminate].
    destruct (PyStr.startswith "T" tid) eqn:Htid; [|discriminate].
    destruct (CustomerID transaction) as [cid|]; [|discriminate].
    destruct (PyStr.startswith "C" cid) eqn:Hcid; [|discriminate].
    intros _. exists q, p, pid, tid, cid. repeat split; auto.
  - intros (q & p & pid & tid & cid & -> & Hq & -> & -> & -> & -> & -> & -> & -> & ->).
    destruct (Z.leb_spec q 0); [lia|]. reflexivity.
Qed.

Lemma is_valid_amount (transaction : Transaction T) :
  is_valid transaction = true ->
  exists amount, amount_of transaction = Some amount.
Proof.
  intros Hv. apply is_valid_iff in Hv.
  destruct Hv as (q & p & ? & ? & ? & Hq & _ & Hp & _).
  unfold amount_of. rewrite Hq, Hp. eauto.
Qed.

Lemma get_valid_transaction_loop (l : list (Transaction T)) :
  forall n acc,
    for_each
      (fun '(invalid_count, valid_transactions) transaction =>
         match violates_rules transaction with
         | Ok true => Ok (invalid_count + 1, valid_transactions)
         | Raise (KeyError _) => Ok (invalid_count + 1, valid_transactions)
         | Raise e => Raise e
         | Ok false => Ok (invalid_count, valid_transactions ++ [transaction])
         end) l (n, acc)
    = Ok (n + (len l - len (List.filter is_valid l)), acc ++ List.filter is_valid l).
Proof.
  induction l as [|x l IH]; intros n acc; simpl.
  - rewrite app_nil_r. do 2 f_equal. unfold len. simpl. lia.
  - assert (Hv : is_valid x = match violates_rules x with
                              | Ok false => true
                              | _ => false
                              end) by reflexivity.
    destruct (violates_rules x) as [[|]|e] eqn:Hx; simpl; rewrite Hv.
    + rewrite IH, len_cons. f_equal. f_equal. lia.
    + rewrite IH, !len_cons, <- app_assoc. f_equal. f_equal. lia.
    + destruct (violates_rules_raises x e Hx) as [key ->]. simpl.
      rewrite IH, len_cons. f_equal. f_equal. lia.
Qed.

(** [get_valid_transaction] never raises: it counts and drops the
    transactions that are not valid and keeps the others in order. *)
Lemma get_valid_transaction_eq (transactions : list (Transaction T)) :
  get_valid_transaction transactions
  = Ok (len transactions - len (List.filter is_valid transactions),
        List.filter is_valid transactions).
Proof.
  unfold get_valid_transaction. rewrite get_valid_transaction_loop.
  reflexivity.
Qed.

Lemma get_trnsaction_by_region_ok (region : string) (l : list (Transaction T)) :
  forallb has_region l = true ->
  get_trnsaction_by_region region l = Ok (List.filter (region_is region) l).
Proof.
  intros Hall. unfold get_trnsaction_by_region.
  rewrite (for_each_keep
             (fun t => let* r := getitem "Region" (Region t) in Ok (String.eqb r region))
             _ (region_is region)).
  - reflexivity.
  - intros acc x. destruct (Region x) as [r|]; simpl; [|reflexivity].
    now destruct (String.eqb r region).
  - rewrite forallb_forall in Hall. apply List.Forall_forall. intros x Hx.
    specialize (Hall x Hx). unfold has_region, region_is in *.
    now destruct (Region x).
Qed.

Lemma get_trnsaction_by_region_raises (region : string) (l : list (Transaction T)) :
  forallb has_region l = false ->
  get_trnsaction_by_region region l = Raise (KeyError "Region").
Proof.
  intros Hsome. unfold get_trnsaction_by_region. apply for_each_raise.
  - apply List.Forall_forall. intros x _ acc.
    destruct (Region x) as [r|]; simpl; [right|now left].
    destruct (String.eqb r region); eauto.
  - apply List.Exists_exists.
    assert (Hex : existsb (fun t => negb (has_region t)) l = true).
    { clear -Hsome. induction l as [|x l IH]; simpl in *; [discriminate|].
      destruct (has_region x); simpl in *; auto. }
    apply existsb_exists in Hex. destruct Hex as (x & Hin & Hx).
    exists x. split; [assumption|]. intros acc. unfold has_region in Hx.
    now destruct (Region x).
Qed.

Lemma get_transaction_by_amout_ok (min_amount max_amount : option T)
    (l : list (Transaction T)) (summary : FilterSummary) :
  Forall (fun t => is_valid t = true) l ->
  get_transaction_by_amout min_amount max_amount l summary
  = Ok (List.filter (in_range min_amount max_amount) l,
        set_filtered_by_amount
          (len l - len (List.filter (in_range min_amount max_amount) l)) summary).
Proof.
  intros Hall. unfold get_transaction_by_amout.
  rewrite (for_each_keep
             (fun t =>
                let* quantity := getitem "Quantity" (Quantity t) in
                let* unit_price := getitem "UnitPrice" (UnitPrice t) in
                Ok (in_range min_amount max_amount t))
             _ (in_range min_amount max_amount)).
  - reflexivity.
  - intros acc x. unfold in_range, amount_of.
    destruct (Quantity x) as [q|]; simpl; [|reflexivity].
    destruct (UnitPrice x) as [p|]; simpl; [|reflexivity].
    destruct min_amount as [mn|]; destruct max_amount as [mx|]; simpl;
      repeat match goal with
             | |- context [if ?b then _ else _] => destruct b; simpl
             end; reflexivity.
  - apply List.Forall_forall. intros x Hx. rewrite List.Forall_forall in Hall.
    destruct (is_valid_amount x (Hall x Hx)) as [a Ha].
    unfold amount_of in Ha.
    destruct (Quantity x); [|discriminate].
    destruct (UnitPrice x); [|discriminate]. reflexivity.
Qed.

End FileHandlerFacts.

Section ValidateAndFilter.
Context {T : Type} `{PyNum T}.

Lemma after_region_valid (region : option string) (l : list (Transaction T)) :
  Forall (fun t => is_valid t = true) (after_region region (List.filter is_valid l)).
Proof.
  apply List.Forall_forall. intros x Hx.
  assert (Hin : In x (List.filter is_valid l)).
  { unfold after_region in Hx. destruct region as [r|]; [|assumption].
    destruct (truthy (Some r)); [|assumption].
    now apply filter_In in Hx. }
  now apply filter_In in Hin.
Qed.

Ltac amount_step Hamount :=
  match goal with
  | |- context [get_transaction_by_amout _ _ _ ?s] =>
      rewrite (Hamount s) by reflexivity
  end.

(** [validate_and_filter] raises in one case only, a region filter meeting a
    validated transaction without the key [Region]; otherwise it returns the
    validated transactions that pass the two filters, in order. *)
Lemma validate_and_filter_eq (transactions : list (Transaction T))
    (region : option string) (min_amount max_amount : option T) :
  let validated := List.filter is_valid transactions in
  let regional := after_region region validated in
  let final := after_amount min_amount max_amount regional in
  validate_and_filter transactions region min_amount max_amount
  = if truthy region && negb (forallb has_region validated)
    then Raise (KeyError "Region")
    else Ok (final, len transactions - len validated,
             summary_of transactions validated regional final).
Proof.
  intros validated regional final.
  unfold validate_and_filter. rewrite get_valid_transaction_eq. simpl bind.
  fold validated.
  assert (Hamount : forall summary,
    filtered_by_amount summary = 0 ->
    match min_amount, max_amount with
    | None, None => Ok (regional, summary)
    | _, _ => get_transaction_by_amout min_amount max_amount regional summary
    end = Ok (final, set_filtered_by_amount (len regional - len final) summary)).
  { intros summary Hzero. subst final. unfold after_amount.
    pose proof (after_region_valid region transactions) as Hv.
    fold validated regional in Hv.
    destruct min_amount, max_amount;
      try (now rewrite get_transaction_by_amout_ok).
    destruct summary; unfold set_filtered_by_amount; simpl in *.
    do 2 f_equal. f_equal. lia. }
  destruct region as [r|].
  - destruct (truthy (Some r)) eqn:Htruthy; simpl andb.
    + destruct (forallb has_region validated) eqn:Hall; simpl negb.
      * rewrite (get_trnsaction_by_region_ok r validated Hall). simpl bind.
        assert (Hregional : regional = List.filter (region_is r) validated).
        { subst regional. unfold after_region. now rewrite Htruthy. }
        rewrite <- Hregional. amount_step Hamount. reflexivity.
      * now rewrite (get_trnsaction_by_region_raises r validated Hall).
    + simpl bind.
      assert (Hregional : regional = validated).
      { subst regional. unfold after_region. now rewrite Htruthy. }
      rewrite Hregional in Hamount |- *. amount_step Hamount. simpl bind.
      unfold summary_of, set_final_count, set_filtered_by_amount, set_invalid.
      simpl. do 3 f_equal. lia.
  - simpl bind. change (after_region None validated) with validated in regional.
    subst regional. amount_step Hamount. simpl bind.
    unfold summary_of, set_final_count, set_filtered_by_amount, set_invalid.
    simpl. do 3 f_equal. lia.
Qed.

(** A validated transaction without the key [Region] comes from the input. *)
Lemma missing_region_in_input (transactions : list (Transaction T)) :
  forallb has_region (List.filter is_valid transactions) = false ->
  exists t, In t transactions /\ is_valid t = true /\ Region t = None.
Proof.
  intros Hall.
  assert (Hex : existsb (fun t => negb (has_region t))
                  (List.filter is_valid transactions) = true).
  { induction (List.filter is_valid transactions) as [|x l IH];
      simpl in *; [discriminate|].
    destruct (has_region x); simpl in *; auto. }
  apply existsb_exists in Hex. destruct Hex as (x & Hin & Hx).
  apply filter_In in Hin. destruct Hin as [Hin Hv].
  exists x. repeat split; try assumption.
  unfold has_region in Hx. now destruct (Region x).
Qed.

End ValidateAndFilter.

(** C1. For every list of transactions and every choice of the region and of
    the two bounds, the summary [validate_and_filter] returns satisfies
    [final_count = total_input - invalid - filtered_by_region -
    filtered_by_amount], each field being the plain count it is named after,
    with [filtered_by_amount] counted against the list the region step left.
    The call returns unless a region filter meets a validated transaction
    that has no [Region] key, which raises [KeyError]. *)
Theorem validate_and_filter_summary_consistent {T : Type} `{PyNum T}
    (transactions : list (Transaction T)) (region : option string)
    (min_amount max_amount : option T) :
  match validate_and_filter transactions region min_amount max_amount with
  | Ok (valid_transactions, invalid_count, summary) =>
      let validated := List.filter is_valid transactions in
      let regional := after_region region validated in
      final_count summary
      = total_input summary - invalid summary - filtered_by_region summary
        - filtered_by_amount summary
      /\ total_input summary = len transactions
      /\ invalid summary = invalid_count
      /\ invalid summary = len transactions - len validated
      /\ filtered_by_region summary = len validated - len regional
      /\ filtered_by_amount summary = len regional - len valid_transactions
      /\ final_count summary = len valid_transactions
  | Raise e =>
      e = KeyError "Region" /\ truthy region = true
      /\ exists t, In t transactions /\ is_valid t = true /\ Region t = None
  end.
Proof.
  rewrite validate_and_filter_eq.
  destruct (truthy region) eqn:Htruthy; simpl andb.
  - destruct (forallb has_region (List.filter is_valid transactions)) eqn:Hall;
      simpl negb; cbv iota.
    + unfold summary_of; simpl. repeat split; lia.
    + repeat split. now apply missing_region_in_input.
  - unfold summary_of; simpl. repeat split; lia.
Qed.

(** C10. For every input list and every combination of filters, the list
    [validate_and_filter] returns is a subsequence of the input, in the
    order of the input: each transaction returned is one of the input
    records, with every field as it was. *)
Theorem validate_and_filter_subsequence {T : Type} `{PyNum T}
    (transactions : list (Transaction T)) (region : option string)
    (min_amount max_amount : option T) :
  match validate_and_filter transactions region min_amount max_amount with
  | Ok (valid_transactions, _, _) =>
      sublist valid_transactions transactions
      /\ Forall (fun t => is_valid t = true) valid_transactions
  | Raise e =>
      e = KeyError "Region" /\ truthy region = true
      /\ exists t, In t transactions /\ is_valid t = true /\ Region t = None
  end.
Proof.
  rewrite validate_and_filter_eq.
  assert (Hsub : sublist (after_amount min_amount max_amount
                            (after_region region (List.filter is_valid transactions)))
                   transactions
                 /\ Forall (fun t => is_valid t = true)
                      (after_amount min_amount max_amount
                         (after_region region (List.filter is_valid transactions)))).
  { pose proof (after_region_valid region transactions) as Hvalid.
    split.
    - transitivity (after_region region (List.filter is_valid transactions)).
      + unfold after_amount. destruct min_amount, max_amount;
          try apply sublist_filter; reflexivity.
      + transitivity (List.filter is_valid transactions);
          [|apply sublist_filter].
        unfold after_region. destruct region as [r|]; [|reflexivity].
        destruct (truthy (Some r)); [apply sublist_filter|reflexivity].
    - unfold after_amount. destruct min_amount, max_amount; try assumption;
        apply List.Forall_forall; intros x Hx; apply filter_In in Hx;
        rewrite List.Forall_forall in Hvalid; now apply Hvalid. }
  destruct (truthy region) eqn:Htruthy; simpl andb.
  - destruct (forallb has_region (List.filter is_valid transactions)) eqn:Hall;
      simpl negb; cbv iota.
    + exact Hsub.
    + repeat split. now apply missing_region_in_input.
  - exact Hsub.
Qed.

Lemma region_is_iff {T : Type} (region : string) (t : Transaction T) :
  region_is region t = true <-> Region t = Some region.
Proof.
  unfold region_is. destruct (Region t) as [r|].
  - rewrite String.eqb_eq. split; congruence.
  - split; discriminate.
Qed.





(** ** The parser *)

Lemma parse_line_app (transactions : list (Transaction float)) (line : string) :
  parse_line transactions line = transactions ++ parse_line [] line.
Proof.
  unfold parse_line.
  destruct (negb (len (PyStr.split "|" (PyStr.strip line)) =? 8));
    [now rewrite app_nil_r|].
  destruct (PyStr.split "|" (PyStr.strip line))
    as [|p0 [|p1 [|p2 [|p3 [|p4 [|p5 [|p6 [|p7 [|p8 rest]]]]]]]]];
    try now rewrite app_nil_r.
  destruct (PyLit.int _); [|now rewrite app_nil_r].
  destruct (PyLit.float _); [reflexivity|now rewrite app_nil_r].
Qed.

Lemma parse_loop (raw_lines : list string) :
  forall transactions,
    fold_left parse_line raw_lines transactions
    = transactions ++ parse_transactions raw_lines.
Proof.
  unfold parse_transactions.
  induction raw_lines as [|line raw_lines IH]; intros transactions; simpl.
  - now rewrite app_nil_r.
  - rewrite IH, (IH (parse_line [] line)), parse_line_app, app_assoc.
    reflexivity.
Qed.

(** The lines are parsed one by one: what a line yields does not depend on
    the lines around it. *)
Lemma parse_transactions_app (lines1 lines2 : list string) :
  parse_transactions (lines1 ++ lines2)
  = parse_transactions lines1 ++ parse_transactions lines2.
Proof.
  unfold parse_transactions at 1. rewrite fold_left_app.
  fold (parse_transactions lines1). apply parse_loop.
Qed.

Lemma parse_transactions_cons (line : string) (raw_lines : list string) :
  parse_transactions (line :: raw_lines)
  = parse_line [] line ++ parse_transactions raw_lines.
Proof. unfold parse_transactions at 1. simpl. apply parse_loop. Qed.

Lemma parse_line_length (line : string) : (length (parse_line [] line) <= 1)%nat.
Proof.
  unfold parse_line.
  destruct (negb (len (PyStr.split "|" (PyStr.strip line)) =? 8)); [simpl; lia|].
  destruct (PyStr.split "|" (PyStr.strip line))
    as [|p0 [|p1 [|p2 [|p3 [|p4 [|p5 [|p6 [|p7 [|p8 rest]]]]]]]]];
    try (simpl; lia).
  destruct (PyLit.int _); [|simpl; lia].
  destruct (PyLit.float _); simpl; lia.
Qed.

Lemma parse_line_malformed (line : string) :
  malformed line -> parse_line [] line = [].
Proof.
  unfold malformed, fields, parse_line, len.
  destruct (PyStr.split "|" (PyStr.strip line))
    as [|p0 [|p1 [|p2 [|p3 [|p4 [|p5 [|p6 [|p7 [|p8 rest]]]]]]]]];
    try reflexivity.
  - simpl. intros [Hlen | [Hint | Hfloat]].
    + now contradiction Hlen.
    + now rewrite Hint.
    + rewrite Hfloat. now destruct (PyLit.int _).
  - intros _. simpl length.
    destruct (negb (Z.of_nat (S (S (S (S (S (S (S (S (S (length rest)))))))))) =? 8))
      eqn:Hlen; [reflexivity|].
    apply negb_false_iff, Z.eqb_eq in Hlen. lia.
Qed.

(** C7. For every list of raw lines, a line that does not split into exactly
    eight fields, or whose quantity or unit price is not a number once the
    commas are removed, yields no record; the lines before and after it are
    parsed as if it were not there; and the list returned is never longer
    than the list of lines. *)
Theorem parse_transactions_drops_malformed (before after : list string)
    (line : string) :
  malformed line ->
  parse_transactions [line] = []
  /\ parse_transactions (before ++ line :: after)
     = parse_transactions before ++ parse_transactions after
  /\ parse_transactions (before ++ line :: after) = parse_transactions (before ++ after)
  /\ forall raw_lines : list string,
       (length (parse_transactions raw_lines) <= length raw_lines)%nat.
Proof.
  intros Hbad.
  assert (Hline : parse_transactions [line] = []).
  { rewrite parse_transactions_cons, parse_line_malformed by assumption.
    reflexivity. }
  assert (Hdrop : parse_transactions (before ++ line :: after)
                  = parse_transactions before ++ parse_transactions after).
  { rewrite parse_transactions_app, parse_transactions_cons.
    now rewrite parse_line_malformed. }
  repeat split; try assumption.
  - now rewrite Hdrop, parse_transactions_app.
  - induction raw_lines as [|l raw_lines IH]; [simpl; lia|].
    rewrite parse_transactions_cons, length_app. simpl length.
    pose proof (parse_line_length l). lia.
Qed.

(** A line of seven fields, a quantity that is not a number and a price that
    is not a number are dropped, each between two lines that are kept. *)
Lemma parse_transactions_drops_malformed_witness :
  malformed "T003|2024-12-01|P103|Keyboard|1|1500|C003"
  /\ (parse_transactions ["T003|2024-12-01|P103|Keyboard|1|1500|C003"] = []
      /\ parse_transactions
           (["T001|2024-12-01|P101|Laptop|2|45000|C001|North"]
            ++ "T003|2024-12-01|P103|Keyboard|1|1500|C003"
            :: ["T002|2024-12-01|P102|Mouse|3|500|C002|North"])
         = parse_transactions ["T001|2024-12-01|P101|Laptop|2|45000|C001|North"]
           ++ parse_transactions ["T002|2024-12-01|P102|Mouse|3|500|C002|North"]
      /\ parse_transactions
           (["T001|2024-12-01|P101|Laptop|2|45000|C001|North"]
            ++ "T003|2024-12-01|P103|Keyboard|1|1500|C003"
            :: ["T002|2024-12-01|P102|Mouse|3|500|C002|North"])
         = parse_transactions
             (["T001|2024-12-01|P101|Laptop|2|45000|C001|North"]
              ++ ["T002|2024-12-01|P102|Mouse|3|500|C002|North"])
      /\ forall raw_lines : list string,
           (length (parse_transactions raw_lines) <= length raw_lines)%nat).
Proof.
  split.
  - left. vm_compute. lia.
  - apply (parse_transactions_drops_malformed
             ["T001|2024-12-01|P101|Laptop|2|45000|C001|North"]
             ["T002|2024-12-01|P102|Mouse|3|500|C002|North"]
             "T003|2024-12-01|P103|Keyboard|1|1500|C003").
    left. vm_compute. lia.
Defined.

(** The two lines around the dropped one are kept: the parser of the witness
    returns the two sales of the scenario. *)
Example parse_scenario :
  parse_transactions
    ["T001|2024-12-01|P101|Laptop|2|45000|C001|North";
     "T003|2024-12-01|P103|Keyboard|1|1500|C003";
     "T004|2024-12-01|P104|Webcam|many|3000|C004|East";
     "T005|2024-12-01|P105|Monitor|1|3,000 each|C005|East";
     "T002|2024-12-01|P102|Mouse|3|500|C002|North"]
  = [Sample.laptop; Sample.mouse].
Proof. vm_compute. reflexivity. Qed.

(** ** Splitting a line that was joined *)

Lemma append_nil (b : string) : (EmptyString ++ b)%string = b.
Proof. reflexivity. Qed.

Lemma append_cons (x : ascii) (a b : string) :
  (String x a ++ b)%string = String x (a ++ b).
Proof. reflexivity. Qed.

Lemma append_assoc (a b c : string) : ((a ++ b) ++ c = a ++ (b ++ c))%string.
Proof.
  induction a as [|x a IH]; [reflexivity|].
  rewrite !append_cons. now f_equal.
Qed.

Lemma lstrip_by_append (p : ascii -> bool) (a : string) (c : ascii) (b : string) :
  p c = false ->
  PyStr.lstrip_by p (a ++ String c b) = (PyStr.lstrip_by p a ++ String c b)%string.
Proof.
  intros Hc. induction a as [|x a IH].
  - rewrite append_nil. simpl. now rewrite Hc.
  - rewrite append_cons. simpl. destruct (p x); [assumption|reflexivity].
Qed.

Lemma rstrip_by_append (p : ascii -> bool) (a : string) (c : ascii) (b : string) :
  p c = false ->
  PyStr.rstrip_by p (a ++ String c b) = (a ++ String c (PyStr.rstrip_by p b))%string.
Proof.
  intros Hc. induction a as [|x a IH].
  - rewrite !append_nil. simpl. rewrite Hc. now destruct (PyStr.rstrip_by p b).
  - rewrite !append_cons. simpl. rewrite IH. now destruct a.
Qed.

Lemma split_no_sep (sep : ascii) (a : string) :
  PyStr.contains sep a = false -> PyStr.split sep a = [a].
Proof.
  induction a as [|x a IH]; simpl; [reflexivity|].
  intros Hno. apply orb_false_iff in Hno. destruct Hno as [Hx Ha].
  rewrite Hx, (IH Ha). reflexivity.
Qed.

Lemma split_append (sep : ascii) (a b : string) :
  PyStr.contains sep a = false ->
  PyStr.split sep (a ++ String sep b) = a :: PyStr.split sep b.
Proof.
  induction a as [|x a IH].
  - intros _. rewrite append_nil. simpl. now rewrite Ascii.eqb_refl.
  - intros Hno. simpl in Hno. apply orb_false_iff in Hno.
    destruct Hno as [Hx Ha].
    rewrite append_cons. simpl. rewrite Hx, (IH Ha). reflexivity.
Qed.

Lemma contains_lstrip_by (p : ascii -> bool) (sep : ascii) (a : string) :
  PyStr.contains sep a = false -> PyStr.contains sep (PyStr.lstrip_by p a) = false.
Proof.
  induction a as [|x a IH]; simpl; [reflexivity|].
  intros Hno. destruct (p x).
  - apply IH. now apply orb_false_iff in Hno.
  - assumption.
Qed.

Lemma contains_rstrip_by (p : ascii -> bool) (sep : ascii) (a : string) :
  PyStr.contains sep a = false -> PyStr.contains sep (PyStr.rstrip_by p a) = false.
Proof.
  induction a as [|x a IH]; simpl; [reflexivity|].
  intros Hno. apply orb_false_iff in Hno. destruct Hno as [Hx Ha].
  specialize (IH Ha). destruct (PyStr.rstrip_by p a) as [|y r].
  - destruct (p x); simpl; [reflexivity|now rewrite Hx].
  - simpl in *. now rewrite Hx.
Qed.

(** The fields of a line joined from eight strings free of the separator:
    the strings, the white space at the two ends of the line removed. *)
Lemma fields_of_joined (f0 f1 f2 f3 f4 f5 f6 f7 : string) :
  Forall no_pipe [f0; f1; f2; f3; f4; f5; f6; f7] ->
  fields (PyStr.join "|" [f0; f1; f2; f3; f4; f5; f6; f7])
  = [PyStr.lstrip_by PyStr.isspace f0; f1; f2; f3; f4; f5; f6;
     PyStr.rstrip_by PyStr.isspace f7].
Proof.
  intros Hno.
  repeat match goal with
         | H : Forall _ (_ :: _) |- _ => inversion H; clear H; subst
         end.
  unfold no_pipe in *.
  unfold fields, PyStr.strip. simpl PyStr.join.
  rewrite !append_cons, !append_nil.
  replace (f0 ++ String "|" (f1 ++ String "|" (f2 ++ String "|" (f3 ++ String "|"
             (f4 ++ String "|" (f5 ++ String "|" (f6 ++ String "|" f7)))))))%string
    with ((f0 ++ String "|" (f1 ++ String "|" (f2 ++ String "|" (f3 ++ String "|"
             (f4 ++ String "|" (f5 ++ String "|" f6)))))) ++ String "|" f7)%string
    by (repeat (rewrite append_assoc, append_cons); reflexivity).
  rewrite rstrip_by_append by reflexivity.
  rewrite append_assoc, append_cons.
  rewrite lstrip_by_append by reflexivity.
  rewrite split_append by now apply contains_lstrip_by.
  repeat (rewrite append_assoc, append_cons).
  repeat (rewrite split_append by assumption).
  rewrite split_no_sep by now apply contains_rstrip_by.
  reflexivity.
Qed.

(** One more transaction that is not valid changes [total_input] and
    [invalid], by one each, and nothing else. *)
Lemma validate_and_filter_invalid {T : Type} `{PyNum T}
    (t : Transaction T) (before after : list (Transaction T))
    (region : option string) (min_amount max_amount : option T) :
  is_valid t = false ->
  validate_and_filter (before ++ t :: after) region min_amount max_amount
  = match validate_and_filter (before ++ after) region min_amount max_amount with
    | Ok (valid_transactions, invalid_count, summary) =>
        Ok (valid_transactions, invalid_count + 1, one_more_invalid summary)
    | Raise e => Raise e
    end.
Proof.
  intros Ht. rewrite !validate_and_filter_eq.
  assert (Hsame : List.filter is_valid (before ++ t :: after)
                  = List.filter is_valid (before ++ after)).
  { rewrite !List.filter_app. simpl. now rewrite Ht. }
  rewrite Hsame.
  destruct (truthy region && negb (forallb has_region
                                     (List.filter is_valid (before ++ after))));
    [reflexivity|].
  unfold summary_of, one_more_invalid. simpl.
  rewrite !len_app, len_cons.
  replace (len before + (1 + len after)) with (len before + len after + 1) by lia.
  replace (len before + len after + 1 - len (List.filter is_valid (before ++ after)))
    with (len before + len after - len (List.filter is_valid (before ++ after)) + 1)
    by lia.
  reflexivity.
Qed.

(** C9. A raw line that is well formed but for its quantity ["-5"] (eight
    fields free of the separator, a price [float] reads) is parsed into one
    transaction whose quantity is the integer [-5]; [validate_and_filter]
    counts that transaction as invalid and leaves it out: with it in the
    input, among any other transactions, the count of invalid transactions is
    one more and the valid output is the same. *)
Theorem negative_quantity_parsed_then_invalid
    (tid date pid name price cid region : string) (unit_price : float) :
  Forall no_pipe [tid; date; pid; name; price; cid; region] ->
  PyLit.float (PyStr.replace "," EmptyString price) = Some unit_price ->
  exists t : Transaction float,
    parse_transactions [PyStr.join "|" [tid; date; pid; name; "-5"; price; cid; region]]
    = [t]
    /\ Quantity t = Some (-5)
    /\ UnitPrice t = Some unit_price
    /\ violates_rules t = Ok true
    /\ is_valid t = false
    /\ forall (before after : list (Transaction float)) (r : option string)
         (min_amount max_amount : option float),
         validate_and_filter (before ++ t :: after) r min_amount max_amount
         = match validate_and_filter (before ++ after) r min_amount max_amount with
           | Ok (valid_transactions, invalid_count, summary) =>
               Ok (valid_transactions, invalid_count + 1, one_more_invalid summary)
           | Raise e => Raise e
           end.
Proof.
  intros Hno Hprice.
  assert (Hfields : fields (PyStr.join "|" [tid; date; pid; name; "-5"; price; cid; region])
                    = [PyStr.lstrip_by PyStr.isspace tid; date; pid; name; "-5";
                       price; cid; PyStr.rstrip_by PyStr.isspace region]).
  { apply fields_of_joined.
    repeat match goal with
           | H : Forall _ (_ :: _) |- _ => inversion H; clear H; subst
           end.
    repeat constructor; assumption. }
  eexists. split.
  - rewrite parse_transactions_cons. unfold parse_line.
    fold (fields (PyStr.join "|" [tid; date; pid; name; "-5"; price; cid; region])).
    rewrite Hfields. simpl negb. cbv iota.
    change (PyLit.int (PyStr.replace "," EmptyString "-5")) with (Some (-5)).
    cbv iota. rewrite Hprice. reflexivity.
  - assert (Hinvalid : forall t : Transaction float,
              Quantity t = Some (-5) ->
              violates_rules t = Ok true /\ is_valid t = false).
    { intros t Hq. unfold is_valid, violates_rules. rewrite Hq. now simpl. }
    simpl. repeat split.
    intros before after r min_amount max_amount.
    now apply validate_and_filter_invalid.
Qed.

(** The line of the scenario with the quantity ["-5"]. *)
Lemma negative_quantity_parsed_then_invalid_witness :
  Forall no_pipe ["T001"; "2024-12-01"; "P101"; "Laptop"; "45000"; "C001"; "North"]
  /\ PyLit.float (PyStr.replace "," EmptyString "45000") = Some 45000%float
  /\ exists t : Transaction float,
       parse_transactions
         [PyStr.join "|" ["T001"; "2024-12-01"; "P101"; "Laptop"; "-5"; "45000";
                          "C001"; "North"]]
       = [t]
       /\ Quantity t = Some (-5)
       /\ UnitPrice t = Some 45000%float
       /\ violates_rules t = Ok true
       /\ is_valid t = false
       /\ forall (before after : list (Transaction float)) (r : option string)
            (min_amount max_amount : option float),
            validate_and_filter (before ++ t :: after) r min_amount max_amount
            = match validate_and_filter (before ++ after) r min_amount max_amount with
              | Ok (valid_transactions, invalid_count, summary) =>
                  Ok (valid_transactions, invalid_count + 1, one_more_invalid summary)
              | Raise e => Raise e
              end.
Proof.
  assert (Hno : Forall no_pipe
                  ["T001"; "2024-12-01"; "P101"; "Laptop"; "45000"; "C001"; "North"])
    by (repeat constructor).
  assert (Hprice : PyLit.float (PyStr.replace "," EmptyString "45000") = Some 45000%float)
    by (vm_compute; reflexivity).
  split; [exact Hno|]. split; [exact Hprice|].
  exact (negative_quantity_parsed_then_invalid
           "T001" "2024-12-01" "P101" "Laptop" "45000" "C001" "North" 45000%float
           Hno Hprice).
Defined.

(** The scenario run: the line is parsed, and the validation of the three
    sales counts one invalid transaction and returns the other two. *)
Example negative_quantity_scenario :
  parse_transactions ["T009|2024-12-03|P101|Laptop|-5|45000|C001|North"]
  = [ {| TransactionID := Some "T009"; Date := Some "2024-12-03";
         ProductID := Some "P101"; ProductName := Some "Laptop";
         Quantity := Some (-5); UnitPrice := Some 45000%float;
         CustomerID := Some "C001"; Region := Some "North" |} ]
  /\ validate_and_filter
       (Sample.laptop
        :: parse_transactions ["T009|2024-12-03|P101|Laptop|-5|45000|C001|North"]
        ++ [Sample.mouse]) None None None
     = Ok ([Sample.laptop; Sample.mouse], 1,
           {| total_input := 3; invalid := 1; filtered_by_region := 0;
              filtered_by_amount := 0; final_count := 2 |}).
Proof. split; vm_compute; reflexivity. Qed.


(** ** The enricher *)

Lemma enrich_loop (product_mapping : gmap Z ProductInfo)
    (transactions : list (Transaction float)) :
  forall enriched,
    fold_left
      (fun enriched_transactions transaction =>
         enriched_transactions ++ [enrich_transaction product_mapping transaction])
      transactions enriched
    = enriched ++ map (enrich_transaction product_mapping) transactions.
Proof.
  induction transactions as [|t transactions IH]; intros enriched; simpl.
  - now rewrite app_nil_r.
  - rewrite IH, <- app_assoc. reflexivity.
Qed.

(** [enrich_sales_data] raises on the empty list and on nothing else; the
    transactions are enriched one by one, in order. *)
Lemma enrich_sales_data_eq (transactions : list (Transaction float))
    (product_mapping : gmap Z ProductInfo) (fs : files) :
  fst (enrich_sales_data transactions product_mapping fs)
  = match transactions with
    | [] => Raise IndexError
    | _ :: _ => Ok (map (enrich_transaction product_mapping) transactions)
    end.
Proof.
  unfold enrich_sales_data. rewrite enrich_loop. simpl app.
  destruct transactions as [|t transactions]; reflexivity.
Qed.

Lemma enrich_transaction_lookup (product_mapping : gmap Z ProductInfo)
    (transaction : Transaction float) (product_id_str : string) :
  ProductID transaction = Some product_id_str ->
  enrich_transaction product_mapping transaction
  = match numeric_id product_id_str with
    | Some product_id =>
        match product_mapping !! product_id with
        | Some product_info => matched product_info transaction
        | None => unmatched transaction
        end
    | None => unmatched transaction
    end.
Proof. intros Hpid. unfold enrich_transaction. now rewrite Hpid. Qed.

Lemma enrich_transaction_empty (transaction : Transaction float) :
  enrich_transaction ∅ transaction = unmatched transaction.
Proof.
  unfold enrich_transaction.
  destruct (numeric_id _) as [product_id|]; [|reflexivity].
  now rewrite lookup_empty.
Qed.

(** C4, on the code. With an empty catalogue, [enrich_sales_data] raises
    [IndexError] on the empty list of transactions: [save_enriched_data]
    takes the header of the file from the first enriched transaction, and
    there is none. On a list that is not empty it returns one record per
    transaction, in order, each with [API_Category], [API_Brand] and
    [API_Rating] null and [API_Match] false. *)
Theorem enrich_sales_data_empty_catalog (fs : files) :
  enrich_sales_data [] ∅ fs
  = (Raise IndexError, <["data/enriched_sales_data.txt" := empty_file]> fs)
  /\ forall (t : Transaction float) (transactions : list (Transaction float)),
       fst (enrich_sales_data (t :: transactions) ∅ fs)
       = Ok (map unmatched (t :: transactions)).
Proof.
  split; [reflexivity|].
  intros t transactions. rewrite enrich_sales_data_eq. f_equal.
  apply map_ext. intros a. apply enrich_transaction_empty.
Qed.

Lemma lstrip_by_spec (p : ascii -> bool) (s : string) :
  exists prefix : string,
    s = (prefix ++ PyStr.lstrip_by p s)%string
    /\ all_chars p prefix = true
    /\ forall c rest, PyStr.lstrip_by p s = String c rest -> p c = false.
Proof.
  induction s as [|x s IH].
  - exists EmptyString. repeat split. discriminate.
  - simpl. destruct (p x) eqn:Hx.
    + destruct IH as (prefix & Heq & Hall & Hfirst).
      exists (String x prefix). rewrite append_cons, <- Heq.
      repeat split; [simpl; now rewrite Hx|assumption].
    + exists EmptyString. repeat split. intros c rest [= <- _]. assumption.
Qed.

Lemma mem_P1 (c : ascii) : PyStr.mem c "P1" = P_or_1 c.
Proof. unfold P_or_1. simpl. now rewrite orb_false_r. Qed.

Lemma lstrip_by_ext (p q : ascii -> bool) (s : string) :
  (forall c, p c = q c) -> PyStr.lstrip_by p s = PyStr.lstrip_by q s.
Proof.
  intros Hpq. induction s as [|x s IH]; simpl; [reflexivity|].
  now rewrite Hpq, IH.
Qed.

Lemma lstrip_all (p : ascii -> bool) (s : string) :
  all_chars p s = true -> PyStr.lstrip_by p s = EmptyString.
Proof.
  induction s as [|x s IH]; simpl; [reflexivity|].
  intros Hall. apply andb_true_iff in Hall. destruct Hall as [Hx Hs].
  rewrite Hx. auto.
Qed.

(** C5. For every ProductID, the number the enricher looks up is [int] of
    what is left once the leading characters among ['P'] and ['1'] are
    removed: the identifier is a run of those characters followed by a rest
    that does not start with one of them, and the rest is what [int] reads. So
    ["P101"] leaves ["01"] and is looked up under 1, and an identifier made of
    those characters only, as ["P1"], leaves nothing, fails [int], and is
    enriched with [API_Match] false and the three API fields null. *)
Theorem numeric_id_strips_P_and_1 :
  (forall product_id_str : string,
     exists prefix : string,
       product_id_str = (prefix ++ PyStr.lstrip "P1" product_id_str)%string
       /\ all_chars P_or_1 prefix = true
       /\ (forall c rest, PyStr.lstrip "P1" product_id_str = String c rest ->
                          P_or_1 c = false)
       /\ numeric_id product_id_str = PyLit.int (PyStr.lstrip "P1" product_id_str))
  /\ PyStr.lstrip "P1" "P101" = "01"
  /\ numeric_id "P101" = Some 1
  /\ (forall (product_mapping : gmap Z ProductInfo) (t : Transaction float),
        ProductID t = Some "P101" ->
        enrich_transaction product_mapping t
        = match product_mapping !! 1 with
          | Some product_info => matched product_info t
          | None => unmatched t
          end)
  /\ (forall product_id_str : string,
        all_chars P_or_1 product_id_str = true ->
        PyStr.lstrip "P1" product_id_str = EmptyString
        /\ numeric_id product_id_str = None
        /\ forall (product_mapping : gmap Z ProductInfo) (t : Transaction float),
             ProductID t = Some product_id_str ->
             enrich_transaction product_mapping t = unmatched t)
  /\ all_chars P_or_1 "P1" = true.
Proof.
  assert (Hpred : forall s, PyStr.lstrip "P1" s = PyStr.lstrip_by P_or_1 s).
  { intros s. unfold PyStr.lstrip. apply lstrip_by_ext, mem_P1. }
  split; [|split; [|split; [|split; [|split]]]].
  - intros product_id_str.
    destruct (lstrip_by_spec P_or_1 product_id_str) as (prefix & Heq & Hall & Hfirst).
    exists prefix. unfold numeric_id. rewrite Hpred.
    split; [assumption|]. split; [assumption|].
    split; [assumption|reflexivity].
  - reflexivity.
  - reflexivity.
  - intros product_mapping t Hpid.
    now rewrite (enrich_transaction_lookup product_mapping t "P101" Hpid).
  - intros product_id_str Hall.
    assert (Hid : numeric_id product_id_str = None).
    { unfold numeric_id. rewrite Hpred, lstrip_all by assumption. reflexivity. }
    split; [rewrite Hpred; now apply lstrip_all|]. split; [assumption|].
    intros product_mapping t Hpid.
    now rewrite (enrich_transaction_lookup product_mapping t product_id_str Hpid), Hid.
  - reflexivity.
Qed.

(** The enrichment of the specification: ["P7"] is found under 7, ["P999"]
    is not in the catalogue, ["P101"] is found under 1 and ["P1"] is not
    looked up at all. *)
Example enrich_scenario :
  let info := {| title := "Lamp"; category := "home"; brand := "Lux";
                 rating := 4.5%float |} in
  let catalogue : gmap Z ProductInfo := <[7 := info]> (<[1 := info]> ∅) in
  let sale (product_id : string) : Transaction float :=
    {| TransactionID := Some "T001"; Date := Some "2024-12-01";
       ProductID := Some product_id; ProductName := Some "Lamp";
       Quantity := Some 1; UnitPrice := Some 10%float;
       CustomerID := Some "C001"; Region := Some "North" |} in
  fst (enrich_sales_data [sale "P7"; sale "P999"; sale "P101"; sale "P1"] catalogue ∅)
  = Ok [matched info (sale "P7"); unmatched (sale "P999");
        matched info (sale "P101"); unmatched (sale "P1")].
Proof. vm_compute. reflexivity. Qed.

(** ** The aggregates on no transaction *)

(** C8. On the empty list of transactions the aggregates return, and return
    their empty values: [calculate_total_revenue] the zero it starts from,
    [region_wise_sales] the empty dictionary (no [ZeroDivisionError]),
    [top_selling_products] the empty list whatever [n] is, and
    [find_peak_sales_day] no day, with revenue [0.0] and count 0. *)
Theorem aggregates_on_empty_input :
  (forall (T : Type) (num : PyNum T),
     calculate_total_revenue (@nil (Transaction T)) = num_of_int 0
     /\ region_wise_sales (@nil (Transaction T)) = Ok [])
  /\ calculate_total_revenue (@nil (Transaction float)) = 0%float
  /\ (forall n : Z, top_selling_products [] n = [])
  /\ daily_sales_trend [] = []
  /\ find_peak_sales_day [] = (None, 0%float, 0).
Proof.
  split; [intros T num; split; reflexivity|].
  split; [reflexivity|].
  split; [|split; reflexivity].
  intros n. unfold top_selling_products, slice_to. simpl.
  now destruct (0 <=? n); rewrite firstn_nil.
Qed.


(** ** The order of floats *)












(** ** The scan for the peak day *)





(** ** Dictionaries *)

Section DictFacts.
Context {V : Type}.







End DictFacts.

(** ** [sorted] *)

Section SortFacts.
Context {A : Type} (after : A -> A -> bool).



(** [x] may stand before [y]. *)
Let before (x y : A) : Prop := after x y = false.

Hypothesis after_asym : forall x y, after x y = true -> after y x = false.
Hypothesis before_trans : forall x y z, before x y -> before y z -> before x z.



End SortFacts.

(** ** The order of strings *)







(** ** The daily trend *)









(** Three days with the same revenue: the earliest is the peak. *)
Example peak_of_a_tie :
  let sale (date : string) (quantity : Z) (unit_price : float) : Transaction float :=
    {| TransactionID := Some "T001"; Date := Some date;
       ProductID := Some "P101"; ProductName := Some "Laptop";
       Quantity := Some quantity; UnitPrice := Some unit_price;
       CustomerID := Some "C001"; Region := Some "North" |} in
  find_peak_sales_day
    [sale "2024-12-02" 2 45000%float; sale "2024-12-01" 3 500%float;
     sale "2024-11-30" 1 90000%float; sale "2024-12-01" 2 44250%float;
     sale "2024-12-03" 9 10000%float]
  = (Some "2024-11-30", 90000%float, 1).
Proof. vm_compute. reflexivity. Qed.

(** ** The regions against the total *)


Example uneven_totals :
  calculate_total_revenue Sample.uneven = 1e16%float
  /\ option_map sum_total_sales
       (match region_wise_sales Sample.uneven with
        | Ok stats => Some stats
        | Raise _ => None
        end)
     = Some 10000000000000002%float.
Proof. split; vm_compute; reflexivity. Qed.

(** *** Sums of fractions *)

Lemma fold_left_Qplus (l : list Q) (a : Q) :
  (fold_left Qplus l a == a + qsum l)%Q.
Proof.
  revert a. induction l as [|x l IH]; intros a; simpl.
  - lra.
  - rewrite IH. lra.
Qed.

Lemma num_sum_qsum (l : list Q) : (num_sum l == qsum l)%Q.
Proof. unfold num_sum. simpl. rewrite fold_left_Qplus. unfold inject_Z. lra. Qed.

Lemma qsum_perm (l1 l2 : list Q) : Permutation l1 l2 -> (qsum l1 == qsum l2)%Q.
Proof.
  induction 1 as [|x l1 l2 _ IH|x y l|l1 l2 l3 _ IH1 _ IH2]; simpl.
  - reflexivity.
  - rewrite IH. reflexivity.
  - lra.
  - rewrite IH1. exact IH2.
Qed.


(** *** Rounding a fraction *)




(** *** The two loops of [region_wise_sales] *)


Section RegionTotals.
Context {T : Type} `{PyNum T}.


Lemma calculate_total_revenue_snoc (transactions : list (Transaction T))
    (t : Transaction T) :
  calculate_total_revenue (transactions ++ [t])
  = match amount_of t with
    | Some amount => num_add (calculate_total_revenue transactions) amount
    | None => calculate_total_revenue transactions
    end.
Proof. unfold calculate_total_revenue. now rewrite fold_left_app. Qed.


End RegionTotals.


(** *** The regions in exact arithmetic *)











(** The same sales in exact arithmetic: the shares are 99.46 and 0.54. *)
Example exact_scenario :
  option_map (map (fun item => (fst item, RegionStats.percentage (snd item))))
    (match region_wise_sales Sample.exact_transactions with
     | Ok stats => Some stats
     | Raise _ => None
     end)
  = Some [("North", Some (9946 # 100)); ("north", Some (54 # 100))].
Proof. vm_compute. reflexivity. Qed.

(** * Further properties *)

(** ** Reading the file *)

Lemma read_loop (lines : list string) :
  forall final_line,
    fold_left
      (fun final_line line =>
         if String.eqb (PyStr.strip line) EmptyString then final_line
         else final_line ++ [line])
      lines final_line
    = final_line ++ List.filter (fun line => negb (blank line)) lines.
Proof.
  induction lines as [|line lines IH]; intros final_line; simpl.
  - now rewrite app_nil_r.
  - rewrite IH. unfold blank.
    destruct (String.eqb (PyStr.strip line) EmptyString); simpl.
    + reflexivity.
    + now rewrite <- app_assoc.
Qed.

Lemma read_sales_data_eq (filename : string) (d : disk) :
  read_sales_data filename d
  = match d !! filename with
    | Some lines => tl (List.filter (fun line => negb (blank line)) lines)
    | None => []
    end.
Proof.
  unfold read_sales_data. destruct (d !! filename); [|reflexivity].
  now rewrite read_loop.
Qed.

Lemma parse_line_blank (line : string) : blank line = true -> parse_line [] line = [].
Proof.
  unfold blank, parse_line. intros Hblank. apply String.eqb_eq in Hblank.
  now rewrite Hblank.
Qed.

(** Blank lines yield no record: the parser gives the same list with and
    without them. *)
Lemma parse_without_blank_lines (lines : list string) :
  parse_transactions (List.filter (fun line => negb (blank line)) lines)
  = parse_transactions lines.
Proof.
  induction lines as [|line lines IH]; [reflexivity|].
  simpl List.filter. destruct (blank line) eqn:Hblank; simpl negb; cbv iota.
  - rewrite (parse_transactions_cons line), parse_line_blank by assumption.
    exact IH.
  - now rewrite !parse_transactions_cons, IH.
Qed.

Lemma filter_none_left {A : Type} (f : A -> bool) (l : list A) :
  forallb f l = true -> List.filter (fun x => negb (f x)) l = [].
Proof.
  induction l as [|x l IH]; simpl; [reflexivity|].
  intros Hall. apply andb_true_iff in Hall. destruct Hall as [Hx Hl].
  rewrite Hx. simpl. auto.
Qed.

(** X1. When the lines of the file are some blank lines, a header and the
    rest, [read_sales_data] returns the rest without its blank lines, and the
    parser makes of that what it makes of the rest: the header is skipped
    even behind blank lines, and blank lines among the data do not matter. *)
Theorem read_then_parse_skips_header (d : disk) (filename : string)
    (blanks : list string) (header : string) (rest : list string) :
  d !! filename = Some (blanks ++ header :: rest) ->
  forallb blank blanks = true ->
  blank header = false ->
  read_sales_data filename d = List.filter (fun line => negb (blank line)) rest
  /\ parse_transactions (read_sales_data filename d) = parse_transactions rest.
Proof.
  intros Hfile Hblanks Hheader.
  assert (Hread : read_sales_data filename d
                  = List.filter (fun line => negb (blank line)) rest).
  { rewrite read_sales_data_eq, Hfile, List.filter_app.
    rewrite (filter_none_left blank blanks Hblanks).
    simpl. now rewrite Hheader. }
  split; [exact Hread|]. rewrite Hread. apply parse_without_blank_lines.
Qed.

(** A file that starts with an empty line, then the header, then two sales
    around an empty line. *)
Lemma read_then_parse_skips_header_witness :
  let newline := String (ascii_of_N 10) EmptyString in
  let d : disk :=
    <["data/sales_data.txt" :=
        [newline;
         ("TransactionID|Date|ProductID|ProductName|Quantity|UnitPrice|CustomerID|Region"
          ++ newline)%string;
         ("T001|2024-12-01|P101|Laptop|2|45000|C001|North" ++ newline)%string;
         newline;
         ("T002|2024-12-01|P102|Mouse|3|500|C002|North" ++ newline)%string]]> ∅ in
  parse_transactions (read_sales_data "data/sales_data.txt" d)
  = [Sample.laptop; Sample.mouse].
Proof.
  intros newline d.
  pose proof (read_then_parse_skips_header d "data/sales_data.txt"
                [newline]
                ("TransactionID|Date|ProductID|ProductName|Quantity|UnitPrice|CustomerID|Region"
                 ++ newline)%string
                [("T001|2024-12-01|P101|Laptop|2|45000|C001|North" ++ newline)%string;
                 newline;
                 ("T002|2024-12-01|P102|Mouse|3|500|C002|North" ++ newline)%string]
                eq_refl eq_refl eq_refl) as [_ Hparse].
  rewrite Hparse. vm_compute. reflexivity.
Defined.


(** ** A well-formed line *)

(** X3. A line joined from eight fields free of the separator, whose fifth
    field reads as an [int] and whose sixth reads as a [float] once the
    commas are removed, is parsed into exactly one transaction: the fields in
    their order, the white space at the two ends of the line removed, every
    comma of the product name turned into a space, the quantity and the price
    as numbers. *)
Theorem parse_well_formed_line
    (tid date pid name quantity_field price_field cid region : string)
    (quantity : Z) (unit_price : float) :
  Forall no_pipe [tid; date; pid; name; quantity_field; price_field; cid; region] ->
  PyLit.int (PyStr.replace "," EmptyString quantity_field) = Some quantity ->
  PyLit.float (PyStr.replace "," EmptyString price_field) = Some unit_price ->
  parse_transactions
    [PyStr.join "|" [tid; date; pid; name; quantity_field; price_field; cid; region]]
  = [ {| TransactionID := Some (PyStr.lstrip_by PyStr.isspace tid);
         Date := Some date;
         ProductID := Some pid;
         ProductName := Some (PyStr.replace "," " " name);
         Quantity := Some quantity;
         UnitPrice := Some unit_price;
         CustomerID := Some cid;
         Region := Some (PyStr.rstrip_by PyStr.isspace region) |} ].
Proof.
  intros Hno Hquantity Hprice.
  rewrite parse_transactions_cons. unfold parse_line.
  fold (fields (PyStr.join "|"
                  [tid; date; pid; name; quantity_field; price_field; cid; region])).
  rewrite (fields_of_joined _ _ _ _ _ _ _ _ Hno). simpl negb. cbv iota.
  rewrite Hquantity, Hprice. reflexivity.
Qed.

(** A sale with a comma in the product name and in the price, and a line
    break at the end of the line. *)
Lemma parse_well_formed_line_witness :
  parse_transactions
    [PyStr.join "|"
       ["T007"; "2024-12-05"; "P107"; "Mouse,Wireless"; "1,000"; "1,916.5"; "C007";
        String "E" (String "a" (String "s" (String "t"
          (String (ascii_of_N 10) EmptyString))))]]
  = [ {| TransactionID := Some "T007"; Date := Some "2024-12-05";
         ProductID := Some "P107"; ProductName := Some "Mouse Wireless";
         Quantity := Some 1000; UnitPrice := Some 1916.5%float;
         CustomerID := Some "C007"; Region := Some "East" |} ].
Proof.
  exact (parse_well_formed_line
           "T007" "2024-12-05" "P107" "Mouse,Wireless" "1,000" "1,916.5" "C007"
           (String "E" (String "a" (String "s" (String "t"
              (String (ascii_of_N 10) EmptyString)))))
           1000 1916.5%float
           ltac:(repeat constructor) eq_refl eq_refl).
Defined.

(** ** What the validator leaves *)

Lemma filter_all {A : Type} (f : A -> bool) (l : list A) :
  Forall (fun x => f x = true) l -> List.filter f l = l.
Proof.
  induction 1 as [|x l Hx _ IH]; simpl; [reflexivity|].
  now rewrite Hx, IH.
Qed.

Lemma Forall_filter_keeps {A : Type} (P : A -> Prop) (f : A -> bool) (l : list A) :
  Forall P l -> Forall P (List.filter f l).
Proof.
  intros Hall. apply List.Forall_forall. intros x Hx.
  apply filter_In in Hx. rewrite List.Forall_forall in Hall. now apply Hall.
Qed.

Lemma Forall_filter_holds {A : Type} (f : A -> bool) (l : list A) :
  Forall (fun x => f x = true) (List.filter f l).
Proof.
  apply List.Forall_forall. intros x Hx. now apply filter_In in Hx.
Qed.

Section FinalList.
Context {T : Type} `{PyNum T}.

Lemma final_valid transactions region min_amount max_amount :
  Forall (fun t => is_valid t = true) (final_list transactions region min_amount max_amount).
Proof.
  unfold final_list, after_amount.
  pose proof (after_region_valid region transactions) as Hvalid.
  destruct min_amount, max_amount; try assumption; now apply Forall_filter_keeps.
Qed.

Lemma final_region transactions (r : string) min_amount max_amount :
  truthy (Some r) = true ->
  Forall (fun t => region_is r t = true)
    (final_list transactions (Some r) min_amount max_amount).
Proof.
  intros Htruthy. unfold final_list, after_amount, after_region. rewrite Htruthy.
  destruct min_amount, max_amount;
    [apply Forall_filter_keeps|apply Forall_filter_keeps
    |apply Forall_filter_keeps|]; apply Forall_filter_holds.
Qed.

Lemma final_amount transactions region min_amount max_amount :
  Forall (fun t => in_range min_amount max_amount t = true)
    (final_list transactions region min_amount max_amount).
Proof.
  unfold final_list, after_amount.
  destruct min_amount as [mn|], max_amount as [mx|];
    try apply Forall_filter_holds.
  eapply List.Forall_impl; [|apply after_region_valid].
  intros t Hvalid. destruct (is_valid_amount t Hvalid) as [amount Hamount].
  unfold in_range. now rewrite Hamount.
Qed.

Lemma validate_and_filter_returns transactions region min_amount max_amount
    valid_transactions invalid_count summary :
  validate_and_filter transactions region min_amount max_amount
  = Ok (valid_transactions, invalid_count, summary) ->
  valid_transactions = final_list transactions region min_amount max_amount.
Proof.
  rewrite validate_and_filter_eq.
  destruct (truthy region && negb (forallb has_region (List.filter is_valid transactions)));
    [discriminate|].
  unfold final_list. now intros [= <- _ _].
Qed.

End FinalList.

(** X4. [validate_and_filter] is idempotent: given the list it returned, with
    the same region and bounds, it returns the same list, counts nothing
    invalid and filters nothing out (and does not raise). *)
Theorem validate_and_filter_idempotent {T : Type} `{PyNum T}
    (transactions : list (Transaction T)) (region : option string)
    (min_amount max_amount : option T)
    (valid_transactions : list (Transaction T)) (invalid_count : Z)
    (summary : FilterSummary) :
  validate_and_filter transactions region min_amount max_amount
  = Ok (valid_transactions, invalid_count, summary) ->
  validate_and_filter valid_transactions region min_amount max_amount
  = Ok (valid_transactions, 0, untouched_summary valid_transactions).
Proof.
  intros Hreturns.
  pose proof (validate_and_filter_returns _ _ _ _ _ _ _ Hreturns) as Hfinal.
  pose proof (final_valid transactions region min_amount max_amount) as Hvalid.
  pose proof (final_amount transactions region min_amount max_amount) as Hamount.
  rewrite <- Hfinal in Hvalid, Hamount.
  assert (Hregion : forall r, region = Some r -> truthy region = true ->
                              Forall (fun t => region_is r t = true) valid_transactions).
  { intros r -> Htruthy. rewrite Hfinal. now apply final_region. }
  clear Hreturns Hfinal.
  rewrite validate_and_filter_eq. rewrite (filter_all _ _ Hvalid).
  assert (Hsame_region : after_region region valid_transactions = valid_transactions).
  { unfold after_region. destruct region as [r|]; [|reflexivity].
    destruct (truthy (Some r)) eqn:Htruthy; [|reflexivity].
    apply filter_all. now apply Hregion. }
  assert (Hsame_amount : after_amount min_amount max_amount valid_transactions
                         = valid_transactions).
  { unfold after_amount. destruct min_amount, max_amount;
      try reflexivity; now apply filter_all. }
  rewrite Hsame_region, Hsame_amount.
  assert (Hhas : truthy region && negb (forallb has_region valid_transactions) = false).
  { destruct (truthy region) eqn:Htruthy; [|reflexivity]. simpl.
    apply negb_false_iff. apply forallb_forall. intros t Ht.
    destruct region as [r|]; [|discriminate].
    specialize (Hregion r eq_refl eq_refl). rewrite List.Forall_forall in Hregion.
    specialize (Hregion t Ht). unfold region_is, has_region in *.
    now destruct (Region t). }
  rewrite Hhas. unfold summary_of, untouched_summary.
  rewrite !Z.sub_diag. reflexivity.
Qed.

(** The sample filtered to the North, and filtered again. *)
Lemma validate_and_filter_idempotent_witness :
  validate_and_filter [Sample.laptop; Sample.mouse] (Some "North")
    (Some 1000%float) None
  = Ok ([Sample.laptop; Sample.mouse], 0,
        untouched_summary [Sample.laptop; Sample.mouse]).
Proof.
  exact (validate_and_filter_idempotent Sample.transactions (Some "North")
           (Some 1000%float) None [Sample.laptop; Sample.mouse] 0
           {| total_input := 3; invalid := 0; filtered_by_region := 1;
              filtered_by_amount := 0; final_count := 2 |} eq_refl).
Defined.

(** X5. Every transaction [validate_and_filter] returns passed the
    validation, has the region that was asked for (when one was, other than
    the empty string), and has an amount that is neither below the lower
    bound nor above the upper bound, for the bounds that were given. *)
Theorem validate_and_filter_postcondition {T : Type} `{PyNum T}
    (transactions : list (Transaction T)) (region : option string)
    (min_amount max_amount : option T)
    (valid_transactions : list (Transaction T)) (invalid_count : Z)
    (summary : FilterSummary) :
  validate_and_filter transactions region min_amount max_amount
  = Ok (valid_transactions, invalid_count, summary) ->
  Forall
    (fun t =>
       is_valid t = true
       /\ (forall r, region = Some r -> r <> EmptyString -> Region t = Some r)
       /\ exists amount,
            amount_of t = Some amount
            /\ (forall m, min_amount = Some m -> num_lt amount m = false)
            /\ (forall m, max_amount = Some m -> num_gt amount m = false))
    valid_transactions.
Proof.
  intros Hreturns.
  pose proof (validate_and_filter_returns _ _ _ _ _ _ _ Hreturns) as Hfinal.
  pose proof (final_valid transactions region min_amount max_amount) as Hvalid.
  pose proof (final_amount transactions region min_amount max_amount) as Hamount.
  rewrite <- Hfinal in Hvalid, Hamount.
  apply List.Forall_forall. intros t Ht.
  rewrite List.Forall_forall in Hvalid, Hamount.
  specialize (Hvalid t Ht). specialize (Hamount t Ht).
  split; [exact Hvalid|]. split.
  - intros r -> Hr.
    assert (Htruthy : truthy (Some r) = true).
    { simpl. destruct (String.eqb_spec r EmptyString); [contradiction|reflexivity]. }
    pose proof (final_region transactions r min_amount max_amount Htruthy) as Hregion.
    rewrite <- Hfinal, List.Forall_forall in Hregion.
    apply region_is_iff. now apply Hregion.
  - unfold in_range in Hamount. destruct (amount_of t) as [amount|]; [|discriminate].
    exists amount. apply andb_true_iff in Hamount. destruct Hamount as [Hmin Hmax].
    apply negb_true_iff in Hmin, Hmax.
    split; [reflexivity|]. split; intros m ->; assumption.
Qed.

(** The sales of the sample in the North of at least 1000 and at most
    100000. *)
Lemma validate_and_filter_postcondition_witness :
  Forall
    (fun t : Transaction float =>
       is_valid t = true
       /\ (forall r, Some "North" = Some r -> r <> EmptyString -> Region t = Some r)
       /\ exists amount,
            amount_of t = Some amount
            /\ (forall m, Some 1000%float = Some m -> num_lt amount m = false)
            /\ (forall m, Some 100000%float = Some m -> num_gt amount m = false))
    [Sample.laptop; Sample.mouse].
Proof.
  exact (validate_and_filter_postcondition Sample.transactions (Some "North")
           (Some 1000%float) (Some 100000%float) [Sample.laptop; Sample.mouse] 0
           {| total_input := 3; invalid := 0; filtered_by_region := 1;
              filtered_by_amount := 0; final_count := 2 |} eq_refl).
Defined.

(** X6. A transaction that lacks one of the five keys the validation reads
    (Quantity, UnitPrice, ProductID, TransactionID, CustomerID) is counted
    as invalid and left out, wherever it stands in the list: the [KeyError]
    is caught, and the count is one more than without it. *)
Theorem missing_checked_key_is_invalid {T : Type} `{PyNum T}
    (t : Transaction T) (before after : list (Transaction T)) :
  lacks_checked_key t ->
  exists (invalid_count : Z) (valid_transactions : list (Transaction T)),
    get_valid_transaction (before ++ after) = Ok (invalid_count, valid_transactions)
    /\ get_valid_transaction (before ++ t :: after)
       = Ok (invalid_count + 1, valid_transactions).
Proof.
  intros Hlacks.
  assert (Hinvalid : is_valid t = false).
  { destruct (is_valid t) eqn:Hv; [|reflexivity].
    apply is_valid_iff in Hv.
    destruct Hv as (q & p & pid & tid & cid & Hq & _ & Hp & _ & Hpid & _ & Htid & _
                    & Hcid & _).
    destruct Hlacks as [Hl|[Hl|[Hl|[Hl|Hl]]]]; congruence. }
  rewrite !get_valid_transaction_eq. do 2 eexists. split; [reflexivity|].
  rewrite !List.filter_app. simpl. rewrite Hinvalid.
  rewrite !len_app, len_cons. do 2 f_equal. lia.
Qed.

(** A sale without its price, between the two sales of the scenario. *)
Lemma missing_checked_key_is_invalid_witness :
  exists (invalid_count : Z) (valid_transactions : list (Transaction float)),
    get_valid_transaction ([Sample.laptop] ++ [Sample.mouse])
    = Ok (invalid_count, valid_transactions)
    /\ get_valid_transaction
         ([Sample.laptop]
          ++ {| TransactionID := Some "T005"; Date := Some "2024-12-01";
                ProductID := Some "P105"; ProductName := Some "Monitor";
                Quantity := Some 1; UnitPrice := None;
                CustomerID := Some "C005"; Region := Some "East" |}
          :: [Sample.mouse])
       = Ok (invalid_count + 1, valid_transactions).
Proof.
  apply (missing_checked_key_is_invalid
           {| TransactionID := Some "T005"; Date := Some "2024-12-01";
              ProductID := Some "P105"; ProductName := Some "Monitor";
              Quantity := Some 1; UnitPrice := None;
              CustomerID := Some "C005"; Region := Some "East" |}
           [Sample.laptop] [Sample.mouse]).
  right. left. reflexivity.
Defined.

(** ** The total revenue *)

Lemma calculate_total_revenue_exact (transactions : list (Transaction Q)) :
  (calculate_total_revenue transactions == qsum (amounts transactions))%Q.
Proof.
  induction transactions as [|t transactions IH] using rev_ind.
  - reflexivity.
  - rewrite calculate_total_revenue_snoc. unfold amounts in *.
    rewrite flat_map_app. simpl.
    destruct (amount_of t) as [amount|]; simpl.
    + rewrite IH. rewrite <- !num_sum_qsum. unfold num_sum.
      rewrite fold_left_app. simpl. reflexivity.
    + now rewrite app_nil_r.
Qed.

(** X7. With prices that are fractions, the total revenue does not depend
    on the order of the transactions. *)
Theorem total_revenue_order_independent (l1 l2 : list (Transaction Q)) :
  Permutation l1 l2 ->
  (calculate_total_revenue l1 == calculate_total_revenue l2)%Q.
Proof.
  intros Hperm. rewrite !calculate_total_revenue_exact.
  apply qsum_perm. unfold amounts. now apply Permutation_flat_map.
Qed.

Lemma total_revenue_order_independent_witness :
  (calculate_total_revenue Sample.exact_transactions
   == calculate_total_revenue (rev Sample.exact_transactions))%Q.
Proof.
  apply (total_revenue_order_independent Sample.exact_transactions
           (rev Sample.exact_transactions)).
  apply Permutation_rev.
Defined.

(** X8. A transaction without its quantity or without its unit price adds
    nothing to the total revenue, wherever it stands: the [KeyError] is
    caught and the sum goes on. *)
Theorem total_revenue_skips_incomplete {T : Type} `{PyNum T}
    (t : Transaction T) (before after : list (Transaction T)) :
  Quantity t = None \/ UnitPrice t = None ->
  calculate_total_revenue (before ++ t :: after)
  = calculate_total_revenue (before ++ after).
Proof.
  intros Hmissing.
  assert (Hamount : amount_of t = None).
  { unfold amount_of. destruct Hmissing as [-> | ->]; [reflexivity|].
    now destruct (Quantity t). }
  unfold calculate_total_revenue. rewrite !fold_left_app. simpl.
  now rewrite Hamount.
Qed.

Lemma total_revenue_skips_incomplete_witness :
  calculate_total_revenue
    ([Sample.laptop]
     ++ {| TransactionID := Some "T005"; Date := Some "2024-12-01";
           ProductID := Some "P105"; ProductName := Some "Monitor";
           Quantity := None; UnitPrice := Some 3000%float;
           CustomerID := Some "C005"; Region := Some "East" |}
     :: [Sample.mouse])
  = calculate_total_revenue ([Sample.laptop] ++ [Sample.mouse]).
Proof.
  apply (total_revenue_skips_incomplete
           {| TransactionID := Some "T005"; Date := Some "2024-12-01";
              ProductID := Some "P105"; ProductName := Some "Monitor";
              Quantity := None; UnitPrice := Some 3000%float;
              CustomerID := Some "C005"; Region := Some "East" |}
           [Sample.laptop] [Sample.mouse]).
  now left.
Defined.

(** ** The regions *)

Section RegionFacts.
Context {T : Type} `{PyNum T}.







End RegionFacts.






(** The scenario of the specification: the North has both sales, 91500.0 in
    all, that is 100.0 per cent. *)
Example region_scenario :
  region_wise_sales [Sample.laptop; Sample.mouse]
  = Ok [("North",
         {| RegionStats.total_sales := 91500%float;
            RegionStats.transaction_count := 2;
            RegionStats.percentage := Some 100%float |})].
Proof. vm_compute. reflexivity. Qed.

(** ** The products *)



















(** ** The customers *)







(** ** The days *)




(** ** The catalogue and the enriched file *)

Lemma create_product_mapping_snoc (api_products : list ApiProduct)
    (product : ApiProduct) :
  create_product_mapping (api_products ++ [product])
  = match product_entry product with
    | Some (product_id, product_info) =>
        <[product_id := product_info]> (create_product_mapping api_products)
    | None => create_product_mapping api_products
    end.
Proof.
  unfold create_product_mapping, product_entry. rewrite fold_left_app. simpl.
  now destruct (api_id product), (api_title product), (api_category product),
    (api_brand product), (api_rating product).
Qed.

(** X15 (create_product_mapping): a number is mapped to what the last
    product with that [id] and with all of [title], [category], [brand] and
    [rating] says, and is not mapped when there is no such product: a product
    without one of the five keys leaves the catalogue as it is, and a later
    product with the same [id] replaces an earlier one. *)
Theorem create_product_mapping_lookup (api_products : list ApiProduct)
    (product_id : Z) :
  create_product_mapping api_products !! product_id
  = last (entries_for product_id api_products).
Proof.
  induction api_products as [|product api_products IH] using rev_ind.
  - apply lookup_empty.
  - rewrite create_product_mapping_snoc. unfold entries_for in *.
    rewrite omap_app, last_app. simpl.
    destruct (product_entry product) as [[i product_info]|]; [|exact IH].
    destruct (Z.eqb_spec i product_id) as [->|Hne]; simpl.
    + apply lookup_insert_eq.
    + now rewrite lookup_insert_ne.
Qed.

Lemma enrich_transaction_agrees (product_mapping : gmap Z ProductInfo)
    (transaction : Transaction float) :
  transaction_of (enrich_transaction product_mapping transaction) = transaction
  /\ agrees_with product_mapping (enrich_transaction product_mapping transaction).
Proof.
  unfold agrees_with, found, enrich_transaction, looked_up.
  assert (Hempty : numeric_id EmptyString = None) by reflexivity.
  destruct (ProductID transaction) as [product_id_str|] eqn:Hpid.
  - destruct (numeric_id product_id_str) as [product_id|] eqn:Hid; simpl.
    + destruct (product_mapping !! product_id) as [product_info|] eqn:Hinfo;
        simpl; rewrite Hpid; simpl; rewrite Hid; simpl; rewrite Hinfo; auto.
    + rewrite Hpid. simpl. rewrite Hid. auto.
  - rewrite Hempty. simpl. rewrite Hpid. auto.
Qed.

(** X16 (enrich_sales_data): on a list that is not empty the enricher
    returns the transactions in their order, each with its eight fields as
    they were, and with the four new fields as the catalogue says: when the
    [ProductID], stripped of its leading [P] and [1] characters, reads as a
    number of the catalogue, [API_Match] is true and the category, brand and
    rating are those of that product; in every other case (no [ProductID],
    nothing that reads as a number, a number not in the catalogue)
    [API_Match] is false and the three are null. *)
Theorem enrich_sales_data_agrees (transactions : list (Transaction float))
    (product_mapping : gmap Z ProductInfo) (fs : files) :
  transactions <> [] ->
  exists enriched,
    fst (enrich_sales_data transactions product_mapping fs) = Ok enriched
    /\ map transaction_of enriched = transactions
    /\ Forall (agrees_with product_mapping) enriched.
Proof.
  intros Hsome. rewrite enrich_sales_data_eq.
  destruct transactions as [|t transactions]; [contradiction|].
  eexists. split; [reflexivity|]. split.
  - rewrite map_map. rewrite <- (map_id (t :: transactions)) at 2.
    apply map_ext. intros a. apply enrich_transaction_agrees.
  - apply List.Forall_forall. intros e He.
    apply in_map_iff in He as (a & <- & _). apply enrich_transaction_agrees.
Qed.

Lemma enrich_sales_data_agrees_witness :
  exists enriched,
    fst (enrich_sales_data Sample.transactions
           (create_product_mapping
              [{| api_id := Some 2; api_title := Some "Mouse";
                  api_category := Some "accessories"; api_brand := Some "Acme";
                  api_rating := Some 4.5%float |}])
           ∅) = Ok enriched
    /\ map transaction_of enriched = Sample.transactions
    /\ Forall (agrees_with
                 (create_product_mapping
                    [{| api_id := Some 2; api_title := Some "Mouse";
                        api_category := Some "accessories"; api_brand := Some "Acme";
                        api_rating := Some 4.5%float |}]))
         enriched.
Proof.
  apply (enrich_sales_data_agrees Sample.transactions). discriminate.
Defined.




Lemma enriched_row_complete (e : EnrichedTransaction) :
  complete (transaction_of e) ->
  enriched_keys e = enriched_columns
  /\ map (enriched_get e) enriched_columns = enriched_row e.
Proof.
  intros (Htid & Hdate & Hpid & Hname & Hq & Hp & Hcid & Hregion).
  unfold enriched_keys, enriched_row.
  destruct (TransactionID (transaction_of e)) eqn:E1; [|contradiction].
  destruct (Date (transaction_of e)) eqn:E2; [|contradiction].
  destruct (ProductID (transaction_of e)) eqn:E3; [|contradiction].
  destruct (ProductName (transaction_of e)) eqn:E4; [|contradiction].
  destruct (Quantity (transaction_of e)) eqn:E5; [|contradiction].
  destruct (UnitPrice (transaction_of e)) eqn:E6; [|contradiction].
  destruct (CustomerID (transaction_of e)) eqn:E7; [|contradiction].
  destruct (Region (transaction_of e)) eqn:E8; [|contradiction].
  split; [reflexivity|].
  unfold enriched_columns, enriched_get. simpl.
  now rewrite E1, E2, E3, E4, E5, E6, E7, E8.
Qed.

(** X18 (enrich_sales_data): when the list is not empty and every
    transaction has its eight fields, as the parser makes them, the enricher
    writes to [data/enriched_sales_data.txt] the header of the twelve
    columns, the eight of the input followed by [API_Category], [API_Brand],
    [API_Rating] and [API_Match], and one row of twelve cells per
    transaction, in the order of the input. *)
Theorem enrich_sales_data_writes_columns (transactions : list (Transaction float))
    (product_mapping : gmap Z ProductInfo) (fs : files) :
  transactions <> [] ->
  Forall complete transactions ->
  snd (enrich_sales_data transactions product_mapping fs)
    !! "data/enriched_sales_data.txt"
  = Some {| header := enriched_columns;
            rows := map (fun transaction =>
                           enriched_row (enrich_transaction product_mapping transaction))
                      transactions |}.
Proof.
  intros Hsome Hcomplete. unfold enrich_sales_data. rewrite enrich_loop.
  simpl app. destruct transactions as [|t transactions]; [contradiction|].
  cbn [map]. cbv beta iota zeta delta [save_enriched_data fst snd].
  unfold files in *. rewrite lookup_insert_eq. f_equal.
  assert (Hrow : forall a, In a (t :: transactions) ->
            enriched_keys (enrich_transaction product_mapping a) = enriched_columns
            /\ map (enriched_get (enrich_transaction product_mapping a))
                 enriched_columns
               = enriched_row (enrich_transaction product_mapping a)).
  { intros a Ha. apply enriched_row_complete.
    rewrite (proj1 (enrich_transaction_agrees product_mapping a)).
    rewrite List.Forall_forall in Hcomplete. now apply Hcomplete. }
  destruct (Hrow t (or_introl eq_refl)) as [Hkeys _].
  rewrite Hkeys. f_equal.
  change (enrich_transaction product_mapping t
          :: map (enrich_transaction product_mapping) transactions)
    with (map (enrich_transaction product_mapping) (t :: transactions)).
  rewrite map_map.
  apply (map_ext_in
           (fun x => map (enriched_get (enrich_transaction product_mapping x))
                       enriched_columns)
           (fun x => enriched_row (enrich_transaction product_mapping x))
           (t :: transactions)).
  intros a Ha. now apply Hrow.
Qed.

Lemma enrich_sales_data_writes_columns_witness :
  snd (enrich_sales_data Sample.transactions ∅ ∅)
    !! "data/enriched_sales_data.txt"
  = Some {| header := enriched_columns;
            rows := map (fun transaction =>
                           enriched_row (enrich_transaction ∅ transaction))
                      Sample.transactions |}.
Proof.
  apply (enrich_sales_data_writes_columns Sample.transactions ∅ ∅).
  - discriminate.
  - repeat constructor; discriminate.
Defined.

(** ** The parser and the filters together *)




Section FiltersAlone.
Context {T : Type} `{PyNum T}.



(** X20 (get_trnsaction_by_region): called on its own, the region filter
    raises [KeyError] on [Region] as soon as one transaction of the list has
    no region, whatever the regions of the others; on a list where every
    transaction has one it returns, in order, those whose region is the one
    asked for, compared as it is written. *)
Theorem get_trnsaction_by_region_alone (region : string)
    (valid_transactions : list (Transaction T)) :
  get_trnsaction_by_region region valid_transactions
  = if forallb has_region valid_transactions
    then Ok (List.filter (region_is region) valid_transactions)
    else Raise (KeyError "Region").
Proof.
  destruct (forallb has_region valid_transactions) eqn:Hall.
  - now apply get_trnsaction_by_region_ok.
  - now apply get_trnsaction_by_region_raises.
Qed.


End FiltersAlone.
